(** * MT-DNN model: construction and forward dispatch

    Shallow embedding of [utils_nlp/models/mtdnn/modeling_mtdnn.py]:
    the two constructors ([MTDNNPretrainedModel.__init__] and
    [MTDNNModel.__init__]), the initialisation pass [_my_init] and the
    task dispatcher [forward].

    Python is modelled with an exception monad.  Name resolution is
    explicit: a global name is looked up in the namespace of the module
    (its imports and its two classes), an instance attribute in the slots
    the constructor binds, a local variable in the bindings made on the
    path taken.  Tensors are modelled by their shape together with the
    list of operations applied to them; the floating point payload is
    left out. *)

From Stdlib Require Import QArith.
From stdpp Require Import base option list strings gmap.

Local Open Scope Z_scope.
Local Open Scope string_scope.
Local Open Scope list_scope.

(** ** Exceptions and the result monad *)

Inductive exn : Type :=
| NameError (name : string)
| UnboundLocalError (name : string)
| AttributeError (attr : string)
| KeyError (key : string)
| IndexError
| AssertionError
| TypeError (msg : string)
| ValueError (msg : string)
| RuntimeError (msg : string)
| NotImplementedError
| ExternalError (msg : string).

Inductive result (A : Type) : Type :=
| Ok (a : A)
| Raise (e : exn).
Arguments Ok {A} a.
Arguments Raise {A} e.

#[global] Instance result_ret : MRet result := fun _ a => Ok a.
#[global] Instance result_bind : MBind result := fun _ _ f r =>
  match r with
  | Ok a => f a
  | Raise e => Raise e
  end.

Definition raises {A} (r : result A) : Prop := ∃ e, r = Raise e.

Definition returns {A} (r : result A) : Prop := ∃ a, r = Ok a.

(** [assert cond] *)
Definition py_assert (cond : bool) : result unit :=
  if cond then Ok tt else Raise AssertionError.

(** [assert x is not None] *)
Definition assert_is_not_None {A} (x : option A) : result A :=
  match x with
  | Some a => Ok a
  | None => Raise AssertionError
  end.

(** [x.method(...)] where [x] may be [None], which has no such method. *)
Definition method_receiver {A} (method : string) (x : option A) : result A :=
  match x with
  | Some a => Ok a
  | None => Raise (AttributeError method)
  end.

(** ** Python sequences: [l[i]] with negative indices counted from the end
    (the behaviour of [list], [tuple] and [nn.ModuleList] alike). *)

Definition py_index {A} (l : list A) (i : Z) : result A :=
  let n := Z.of_nat (length l) in
  let j := if bool_decide (i < 0) then n + i else i in
  if bool_decide (j < 0) then Raise IndexError
  else match l !! Z.to_nat j with
       | Some x => Ok x
       | None => Raise IndexError
       end.

(** [enumerate(l)] *)
Definition enumerate {A} (l : list A) : list (Z * A) :=
  imap (fun i x => (Z.of_nat i, x)) l.

(** ** Name resolution *)

Inductive PyObj : Type :=
| ObjModule
| ObjClass
| ObjFunction
| ObjInt (n : nat)
| ObjOther.

(** The global namespace of [modeling_mtdnn.py]: what its [import]
    statements and its top-level statements bind, in source order. *)
Definition module_globals : gmap string PyObj :=
  list_to_map
    [ ("logging", ObjModule); ("os", ObjModule); ("torch", ObjModule);
      ("nn", ObjModule);
      ("BertConfig", ObjClass); ("BertModel", ObjClass);
      ("BertPreTrainedModel", ObjClass); ("PretrainedConfig", ObjClass);
      ("PreTrainedModel", ObjClass); ("RobertaModel", ObjClass);
      ("FairseqRobertModel", ObjClass);
      ("maybe_download", ObjFunction);
      ("AverageMeter", ObjClass); ("LinearPooler", ObjClass);
      ("DataFormat", ObjClass); ("EncoderModelType", ObjClass);
      ("TaskType", ObjClass);
      ("MTDNNConfig", ObjClass);
      ("PRETRAINED_MODEL_ARCHIVE_MAP", ObjOther);
      ("logger", ObjOther);
      ("MTDNNPretrainedModel", ObjClass); ("MTDNNModel", ObjClass) ].

(** A name that is neither local nor global (nor a builtin). *)
Definition load_global (name : string) : result PyObj :=
  match module_globals !! name with
  | Some o => Ok o
  | None => Raise (NameError name)
  end.

Definition load_global_int (name : string) : result nat :=
  o ← load_global name;
  match o with
  | ObjInt n => Ok n
  | _ => Raise (TypeError "an integer is required")
  end.

(** [self.attr] for a slot that is bound on some paths only. *)
Definition getattr {A} (attr : string) (slot : option A) : result A :=
  match slot with
  | Some a => Ok a
  | None => Raise (AttributeError attr)
  end.

(** A local variable that is bound on some paths only. *)
Definition load_local {A} (name : string) (binding : option A) : result A :=
  match binding with
  | Some a => Ok a
  | None => Raise (UnboundLocalError name)
  end.

(** ** Enumerations and configuration *)

(** Modelled from the spec: [EncoderModelType] of
    [utils_nlp.models.mtdnn.common.types], the encoder choice "BERT-like
    vs RoBERTa-like". *)
Inductive EncoderModelType : Type := BERT | ROBERTA.

(** Modelled from the spec: [TaskType] of
    [utils_nlp.models.mtdnn.common.types], "Span, SequenceLabeling,
    Other/Classification". *)
Inductive TaskType : Type := Span | SequenceLabeling | Other.

#[global] Instance EncoderModelType_eq_dec : EqDecision EncoderModelType.
Proof. solve_decision. Defined.
#[global] Instance TaskType_eq_dec : EqDecision TaskType.
Proof. solve_decision. Defined.

Module MTDNNConfig.
(** Modelled from the spec: the configuration object of
    [utils_nlp.models.mtdnn.configuration_mtdnn], a
    [PretrainedConfig]; one field per attribute the model reads. *)
Record t : Type := {
  encoder_type : EncoderModelType;
  init_checkpoint : string;
  hidden_size : nat;
  dump_feature : bool;
  decoder_opts : list Z;
  update_bert_opt : Z;
  task_types : list TaskType;
  tasks_dropout_p : list Q;
  n_class : list nat;
  enable_variational_dropout : bool
}.
End MTDNNConfig.

(** What a caller may pass as the constructor's [config] argument. *)
Inductive PyVal : Type :=
| PyNone
| PyInt (z : Z)
| PyStr (s : string)
| PyDict (items : list (string * string))
| PyConfig (c : MTDNNConfig.t).


(** ** Tensors: shape and provenance *)

Inductive Op : Type :=
| OpDropout (p : Q) (variational : bool)
| OpLinear (in_features out_features : nat)
| OpSplit (chunk : nat)
| OpSqueeze
| OpView
| OpSlice (stop : nat)
| OpPool (hidden : nat).

Record Tensor : Type := mkTensor {
  shape : list nat;
  hist : list Op
}.

Definition after (x : Tensor) (new_shape : list nat) (op : Op) : Tensor :=
  {| shape := new_shape; hist := hist x ++ [op] |}.

(** Last dimension and the dimensions before it. *)
Fixpoint unsnoc {A} (l : list A) : option (list A * A) :=
  match l with
  | [] => None
  | x :: l' =>
      match unsnoc l' with
      | None => Some ([], x)
      | Some (pre, y) => Some (x :: pre, y)
      end
  end.

(** [x.size(d)] *)
Definition size (x : Tensor) (d : nat) : result nat :=
  match shape x !! d with
  | Some n => Ok n
  | None => Raise IndexError
  end.

Definition numel (x : Tensor) : nat := foldr Nat.mul 1%nat (shape x).

(** [x.split(1, dim=-1)]: chunks of width one along the last dimension
    (a single empty chunk when that dimension is empty). *)
Definition split1_last (x : Tensor) : result (list Tensor) :=
  match unsnoc (shape x) with
  | None => Raise IndexError
  | Some (pre, k) =>
      Ok (match k with
          | O => [after x (shape x) (OpSplit 0)]
          | _ => (fun j => after x (pre ++ [1%nat]) (OpSplit j)) <$> seq 0 k
          end)
  end.

(** [a, b = chunks] *)
Definition unpack2 {A} (l : list A) : result (A * A) :=
  match l with
  | [a; b] => Ok (a, b)
  | [] | [_] => Raise (ValueError "not enough values to unpack")
  | _ => Raise (ValueError "too many values to unpack")
  end.

(** [x.squeeze(-1)] *)
Definition squeeze_last (x : Tensor) : Tensor :=
  match unsnoc (shape x) with
  | Some (pre, 1%nat) => after x pre OpSqueeze
  | _ => after x (shape x) OpSqueeze
  end.

(** [x.contiguous().view(-1, cols)] *)
Definition view_rows (x : Tensor) (cols : nat) : result Tensor :=
  match cols with
  | O => Raise (RuntimeError "view: cannot infer the unspecified dimension")
  | _ =>
      if bool_decide (numel x `mod` cols = 0)%nat
      then Ok (after x [(numel x `div` cols)%nat; cols] OpView)
      else Raise (RuntimeError "view: shape is invalid for input size")
  end.

(** [x[:, :stop, :]] *)
Definition slice_dim1 (x : Tensor) (stop : nat) : result Tensor :=
  match shape x with
  | d0 :: d1 :: d2 :: rest =>
      Ok (after x (d0 :: Nat.min d1 stop :: d2 :: rest) (OpSlice stop))
  | _ => Raise IndexError
  end.

(** ** Modules *)

(** What the initialisation pass leaves in a parameter. *)
Inductive ParamData : Type :=
| Untouched
| Zeroed
| Filled (v : Q)
| NormalSample (mean std : Q).

(** The module classes the model is built from.  [BertLayerNorm] keeps
    its scale and shift either under the names [gamma]/[beta]
    ([legacy_names]) or under [weight]/[bias]. *)
Inductive ModuleClass : Type :=
| Linear (in_features out_features : nat) (weight bias : ParamData)
| Embedding (num_embeddings embedding_dim : nat) (weight : ParamData)
| BertLayerNorm (legacy_names : bool) (scale shift : ParamData)
| DropoutWrapper (p : Q) (variational : bool)
| LinearPooler (hidden : nat)
| ModuleList
| OtherModule (cls : string).

(** A module with its registered children, in registration order. *)
#[warnings="-register-all"]
Inductive Module : Type :=
| Node (cls : ModuleClass) (children : list Module).

Definition class_of (m : Module) : ModuleClass :=
  match m with Node c _ => c end.

Definition leaf (c : ModuleClass) : Module := Node c [].

(** [nn.Linear.forward] *)
Definition linear_forward (i o : nat) (x : Tensor) : result Tensor :=
  match unsnoc (shape x) with
  | Some (pre, d) =>
      if bool_decide (d = i) then Ok (after x (pre ++ [o]) (OpLinear i o))
      else Raise (RuntimeError "size mismatch")
  | None => Raise (RuntimeError "size mismatch")
  end.

(** Modelled from the spec: [LinearPooler.forward] of
    [utils_nlp.models.mtdnn.common.linear_pooler], which turns the
    sequence output into "a pooled vector of the same hidden size": the
    sequence dimension is dropped and the hidden dimension is kept. *)
Definition pooler_forward (h : nat) (x : Tensor) : result Tensor :=
  match shape x with
  | b :: S _ :: rest =>
      match unsnoc (b :: rest) with
      | Some (pre, d) =>
          if bool_decide (d = h) then Ok (after x (pre ++ [h]) (OpPool h))
          else Raise (RuntimeError "size mismatch")
      | None => Raise (RuntimeError "size mismatch")
      end
  | _ => Raise IndexError
  end.

(** [nn.Module.apply]: the function is applied to every descendant,
    children first, then to the module itself.  The function updates the
    module in place; here it returns the updated module. *)
Fixpoint apply (fn : Module → result Module) (m : Module) : result Module :=
  match m with
  | Node c children =>
      children' ← (fix go (l : list Module) : result (list Module) :=
                     match l with
                     | [] => Ok []
                     | x :: l' =>
                         x' ← apply fn x;
                         l'' ← go l';
                         Ok (x' :: l'')
                     end) children;
      fn (Node c children')
  end.

(** ** The collaborators defined outside the file *)

(** The shared encoder held in [self.bert]: a [BertModel], called as
    [self.bert(input_ids, token_type_ids, attention_mask)], or the
    fairseq RoBERTa interface with [extract_features] and
    [args.encoder_embed_dim].  The call returns the two objects line 142
    unpacks; the first, bound to [all_encoder_layers], is only ever
    indexed, and is held as the sequence of its items: the layers for an
    encoder that returns a list of layers, the batch rows for an encoder
    that returns one tensor of shape batch × length × hidden (as
    [transformers.BertModel], the class imported here, does). *)
Record Encoder : Type := mkEncoder {
  enc_module : Module;
  enc_requires_grad : bool;
  enc_call : Tensor → Tensor → Tensor → result (list Tensor * Tensor);
  enc_extract_features : Tensor → result Tensor;
  enc_embed_dim : option nat
}.

(** What [BertModel.__init__] registers on [self]. *)
Record BaseModules : Type := mkBase {
  base_embeddings : Module;
  base_encoder : Module;
  base_pooler : Module
}.

Record Externals : Type := mkExternals {
  (** [super(MTDNNPretrainedModel, self).__init__(config)] *)
  super_init : PyVal → result BaseModules;
  (** [BertModel(BertConfig.from_dict(...))] *)
  BertModel_new : MTDNNConfig.t → result Encoder;
  (** [FairseqRobertModel.from_pretrained(init_checkpoint)] *)
  from_pretrained : string → result Encoder;
  (** [forward] of a module whose class is defined elsewhere *)
  opaque_forward : string → list Tensor → result Tensor
}.

(** ** The model instance *)

(** The attributes of the instance the two constructors and [forward]
    read back.  The three modules [BertModel.__init__] registers come
    first; a slot that is bound only when heads are built is an option.
    [train_loss] is written once and never read here; [config_dict],
    [mtdnn_config] and [bert_config] are copies of the configuration,
    so that [bert_config.hidden_size] is the configuration's hidden
    size. *)

Record MTDNNModel : Type := mkModel {
  embeddings : Module;
  encoder : Module;
  pooler : Module;
  config : MTDNNConfig.t;
  local_updates : Z;
  dropout_list : list Module;
  encoder_type : EncoderModelType;
  bert : Encoder;
  hidden_size : nat;
  decoder_opts : option (list Z);
  scoring_list : option (list Module);
  task_types : option (list TaskType);
  task_dropout_p : option (list Q);
  n_class : option (list nat)
}.

(** Attribute assignment [self.attr = v], one function per slot. *)
Definition set_embeddings (self : MTDNNModel) (v : Module) : MTDNNModel :=
  mkModel v (encoder self) (pooler self) (config self) (local_updates self) (dropout_list self) (encoder_type self) (bert self) (hidden_size self) (decoder_opts self) (scoring_list self) (task_types self) (task_dropout_p self) (n_class self).
Definition set_encoder (self : MTDNNModel) (v : Module) : MTDNNModel :=
  mkModel (embeddings self) v (pooler self) (config self) (local_updates self) (dropout_list self) (encoder_type self) (bert self) (hidden_size self) (decoder_opts self) (scoring_list self) (task_types self) (task_dropout_p self) (n_class self).
Definition set_pooler (self : MTDNNModel) (v : Module) : MTDNNModel :=
  mkModel (embeddings self) (encoder self) v (config self) (local_updates self) (dropout_list self) (encoder_type self) (bert self) (hidden_size self) (decoder_opts self) (scoring_list self) (task_types self) (task_dropout_p self) (n_class self).
Definition set_dropout_list (self : MTDNNModel) (v : list Module) : MTDNNModel :=
  mkModel (embeddings self) (encoder self) (pooler self) (config self) (local_updates self) v (encoder_type self) (bert self) (hidden_size self) (decoder_opts self) (scoring_list self) (task_types self) (task_dropout_p self) (n_class self).
Definition set_bert (self : MTDNNModel) (v : Encoder) : MTDNNModel :=
  mkModel (embeddings self) (encoder self) (pooler self) (config self) (local_updates self) (dropout_list self) (encoder_type self) v (hidden_size self) (decoder_opts self) (scoring_list self) (task_types self) (task_dropout_p self) (n_class self).
Definition set_hidden_size (self : MTDNNModel) (v : nat) : MTDNNModel :=
  mkModel (embeddings self) (encoder self) (pooler self) (config self) (local_updates self) (dropout_list self) (encoder_type self) (bert self) v (decoder_opts self) (scoring_list self) (task_types self) (task_dropout_p self) (n_class self).
Definition set_decoder_opts (self : MTDNNModel) (v : option (list Z)) : MTDNNModel :=
  mkModel (embeddings self) (encoder self) (pooler self) (config self) (local_updates self) (dropout_list self) (encoder_type self) (bert self) (hidden_size self) v (scoring_list self) (task_types self) (task_dropout_p self) (n_class self).
Definition set_scoring_list (self : MTDNNModel) (v : option (list Module)) : MTDNNModel :=
  mkModel (embeddings self) (encoder self) (pooler self) (config self) (local_updates self) (dropout_list self) (encoder_type self) (bert self) (hidden_size self) (decoder_opts self) v (task_types self) (task_dropout_p self) (n_class self).
Definition set_task_types (self : MTDNNModel) (v : option (list TaskType)) : MTDNNModel :=
  mkModel (embeddings self) (encoder self) (pooler self) (config self) (local_updates self) (dropout_list self) (encoder_type self) (bert self) (hidden_size self) (decoder_opts self) (scoring_list self) v (task_dropout_p self) (n_class self).
Definition set_task_dropout_p (self : MTDNNModel) (v : option (list Q)) : MTDNNModel :=
  mkModel (embeddings self) (encoder self) (pooler self) (config self) (local_updates self) (dropout_list self) (encoder_type self) (bert self) (hidden_size self) (decoder_opts self) (scoring_list self) (task_types self) v (n_class self).
Definition set_n_class (self : MTDNNModel) (v : option (list nat)) : MTDNNModel :=
  mkModel (embeddings self) (encoder self) (pooler self) (config self) (local_updates self) (dropout_list self) (encoder_type self) (bert self) (hidden_size self) (decoder_opts self) (scoring_list self) (task_types self) (task_dropout_p self) v.

(** No statement of the two classes, nor of their bases, binds an
    attribute [opt] on the instance. *)
Definition opt (self : MTDNNModel) : option (gmap string Q) := None.

(** The values [forward] returns. *)
Inductive Output : Type :=
| SpanScores (start_scores end_scores : Tensor)
| Logits (logits : Tensor).

(** The local variables bound by the encoding step of [forward]. *)
Record Locals : Type := mkLocals {
  all_encoder_layers : option (list Tensor);
  pooled_output : Tensor;
  sequence_output : Tensor
}.

Section Model.
Context (ext : Externals).

(** Calling a module on positional arguments. *)
Definition call_module (m : Module) (args : list Tensor) : result Tensor :=
  match class_of m, args with
  | ModuleList, _ => Raise NotImplementedError
  | OtherModule cls, _ => opaque_forward ext cls args
  | Linear i o _ _, [x] => linear_forward i o x
  | Embedding _ d _, [x] => Ok (mkTensor (shape x ++ [d]) (hist x))
  | BertLayerNorm _ _ _, [x] => Ok x
  | DropoutWrapper p v, [x] => Ok (after x (shape x) (OpDropout p v))
  | LinearPooler h, [x] => pooler_forward h x
  | _, _ => Raise (TypeError "forward() takes 2 positional arguments")
  end.

(** *** [MTDNNModel.forward] *)

(** Lines 138-143. *)
Definition encode (self : MTDNNModel)
    (input_ids token_type_ids attention_mask : Tensor) : result Locals :=
  if decide (encoder_type self = ROBERTA) then
    sequence_output ← enc_extract_features (bert self) input_ids;
    pooled_output ← call_module (pooler self) [sequence_output];
    Ok (mkLocals None pooled_output sequence_output)
  else
    '(all_encoder_layers, pooled_output) ←
       enc_call (bert self) input_ids token_type_ids attention_mask;
    sequence_output ← py_index all_encoder_layers (-1);
    Ok (mkLocals (Some all_encoder_layers) pooled_output sequence_output).

(** Lines 145-174. *)
Definition dispatch (self : MTDNNModel) (loc : Locals)
    (premise_mask hyp_mask : option Tensor) (task_id : Z) : result Output :=
  decoder_opts ← getattr "decoder_opts" (decoder_opts self);
  decoder_opt ← py_index decoder_opts task_id;
  task_types ← getattr "task_types" (task_types self);
  task_type ← py_index task_types task_id;
  if decide (task_type = Span) then
    _ ← py_assert (negb (bool_decide (decoder_opt = 1)));
    dropout ← py_index (dropout_list self) task_id;
    sequence_output ← call_module dropout [sequence_output loc];
    scoring_list ← getattr "scoring_list" (scoring_list self);
    head ← py_index scoring_list task_id;
    logits ← call_module head [sequence_output];
    chunks ← split1_last logits;
    '(start_scores, end_scores) ← unpack2 chunks;
    let start_scores := squeeze_last start_scores in
    let end_scores := squeeze_last end_scores in
    Ok (SpanScores start_scores end_scores)
  else if decide (task_type = SequenceLabeling) then
    all_encoder_layers ← load_local "all_encoder_layers" (all_encoder_layers loc);
    pooled_output ← py_index all_encoder_layers (-1);
    dropout ← py_index (dropout_list self) task_id;
    pooled_output ← call_module dropout [pooled_output];
    cols ← size pooled_output 2;
    pooled_output ← view_rows pooled_output cols;
    scoring_list ← getattr "scoring_list" (scoring_list self);
    head ← py_index scoring_list task_id;
    logits ← call_module head [pooled_output];
    Ok (Logits logits)
  else
    if bool_decide (decoder_opt = 1) then
      hyp ← method_receiver "size" hyp_mask;
      max_query ← size hyp 1;
      _ ← py_assert (bool_decide (0 < max_query)%nat);
      premise ← assert_is_not_None premise_mask;
      hyp ← assert_is_not_None hyp_mask;
      hyp_mem ← slice_dim1 (sequence_output loc) max_query;
      scoring_list ← getattr "scoring_list" (scoring_list self);
      head ← py_index scoring_list task_id;
      logits ← call_module head [sequence_output loc; hyp_mem; premise; hyp];
      Ok (Logits logits)
    else
      dropout ← py_index (dropout_list self) task_id;
      pooled_output ← call_module dropout [pooled_output loc];
      scoring_list ← getattr "scoring_list" (scoring_list self);
      head ← py_index scoring_list task_id;
      logits ← call_module head [pooled_output];
      Ok (Logits logits).

Definition forward (self : MTDNNModel)
    (input_ids token_type_ids attention_mask : Tensor)
    (premise_mask hyp_mask : option Tensor) (task_id : Z) : result Output :=
  loc ← encode self input_ids token_type_ids attention_mask;
  dispatch self loc premise_mask hyp_mask task_id.

End Model.

(** ** Construction *)

(** The message of the [ValueError] raised at lines 42-48, with
    [self.__class__.__name__] substituted twice. *)
Definition config_error_message (class_name : string) : string :=
  "Parameter config in `" +:+ class_name +:+
  "(config)` should be an instance of class `PretrainedConfig`. " +:+
  "To create a model from a pretrained model use " +:+
  "`model = " +:+ class_name +:+ ".from_pretrained(PRETRAINED_MODEL_NAME)`".


Definition as_PretrainedConfig (v : PyVal) : option MTDNNConfig.t :=
  match v with
  | PyConfig c => Some c
  | _ => None
  end.

Definition isinstance_Linear_or_Embedding (m : Module) : bool :=
  match class_of m with
  | Linear _ _ _ _ | Embedding _ _ _ => true
  | _ => false
  end.

Definition isinstance_Linear (m : Module) : bool :=
  match class_of m with
  | Linear _ _ _ _ => true
  | _ => false
  end.

(** [d[key]] *)
Definition dict_getitem {A} (d : gmap string A) (key : string) : result A :=
  match d !! key with
  | Some a => Ok a
  | None => Raise (KeyError key)
  end.

(** [module.weight.data.normal_(mean, std)] on a linear or embedding
    module. *)
Definition normal_weight (mean std : Q) (m : Module) : Module :=
  match m with
  | Node (Linear i o _ b) cs => Node (Linear i o (NormalSample mean std) b) cs
  | Node (Embedding n d _) cs => Node (Embedding n d (NormalSample mean std)) cs
  | _ => m
  end.

(** [module.bias.data.zero_()] on a linear module. *)
Definition zero_bias (m : Module) : Module :=
  match m with
  | Node (Linear i o w _) cs => Node (Linear i o w Zeroed) cs
  | _ => m
  end.

(** The modules [self.apply] walks through: the children of the
    instance, in registration order, under the instance itself. *)
Definition module_tree (self : MTDNNModel) : Module :=
  Node (OtherModule "MTDNNModel")
    ([embeddings self; encoder self; pooler self;
      Node ModuleList (dropout_list self);
      enc_module (bert self)] ++
     match scoring_list self with
     | Some heads => [Node ModuleList heads]
     | None => []
     end).

(** The instance after the walk updated its modules in place. *)
Definition with_module_tree (self : MTDNNModel) (tree : Module) : MTDNNModel :=
  match tree with
  | Node _ (e :: n :: p :: Node _ dl :: b :: rest) =>
      let bert' := mkEncoder b (enc_requires_grad (bert self)) (enc_call (bert self))
                     (enc_extract_features (bert self)) (enc_embed_dim (bert self)) in
      let self := set_embeddings self e in
      let self := set_encoder self n in
      let self := set_pooler self p in
      let self := set_dropout_list self dl in
      let self := set_bert self bert' in
      match rest with
      | [Node _ heads] => set_scoring_list self (Some heads)
      | _ => self
      end
  | _ => self
  end.

(** [for param in self.bert.parameters(): param.requires_grad = False] *)
Definition freeze (e : Encoder) : Encoder :=
  mkEncoder (enc_module e) false (enc_call e) (enc_extract_features e)
    (enc_embed_dim e).

Section Construction.
Context (ext : Externals).

(** *** [MTDNNPretrainedModel.__init__] (lines 39-50) *)
Definition MTDNNPretrainedModel_init (class_name : string) (config : PyVal)
    : result (BaseModules * MTDNNConfig.t) :=
  base ← super_init ext config;
  match as_PretrainedConfig config with
  | None => Raise (ValueError (config_error_message class_name))
  | Some c => Ok (base, c)
  end.

(** *** [MTDNNModel._my_init] (lines 113-133) *)
Definition init_weights (self : MTDNNModel) (module : Module) : result Module :=
  module ← (if isinstance_Linear_or_Embedding module then
              opt ← getattr "opt" (opt self);
              init_ratio ← dict_getitem opt "init_ratio";
              Ok (normal_weight 0 ((2 # 100) * init_ratio) module)
            else
              _ ← load_global "BertLayerNorm";
              match module with
              | Node (BertLayerNorm legacy_names _ _) cs =>
                  if legacy_names
                  then Ok (Node (BertLayerNorm legacy_names (Filled 1) Zeroed) cs)
                  else Ok (Node (BertLayerNorm legacy_names (Filled 1) Zeroed) cs)
              | _ => Ok module
              end);
  if isinstance_Linear module then Ok (zero_bias module) else Ok module.

Definition _my_init (self : MTDNNModel) : result MTDNNModel :=
  tree ← apply (init_weights self) (module_tree self);
  Ok (with_module_tree self tree).

(** *** [MTDNNModel.__init__] (lines 54-105) *)

(** One turn of the loop of lines 91-103. *)
Definition add_head (config : MTDNNConfig.t) (self : MTDNNModel)
    (task : Z) (label : nat) : result MTDNNModel :=
  task_types ← getattr "task_types" (task_types self);
  task_type ← py_index task_types task;
  _ ← load_global "DropoutWrapper";
  task_dropout_p ← getattr "task_dropout_p" (task_dropout_p self);
  p ← py_index task_dropout_p task;
  let dropout :=
    leaf (DropoutWrapper p (MTDNNConfig.enable_variational_dropout config)) in
  let self := set_dropout_list self (dropout_list self ++ [dropout]) in
  out_proj ←
    (if decide (task_type = Span) then
       _ ← load_global "nn";
       hidden_size ← load_global_int "hidden_size";
       Ok (leaf (Linear hidden_size 2 Untouched Untouched))
     else if decide (task_type = SequenceLabeling) then
       _ ← load_global "nn";
       hidden_size ← load_global_int "hidden_size";
       Ok (leaf (Linear hidden_size label Untouched Untouched))
     else
       _ ← load_global "nn";
       hidden_size ← load_global_int "hidden_size";
       Ok (leaf (Linear hidden_size label Untouched Untouched)));
  scoring_list ← getattr "scoring_list" (scoring_list self);
  Ok (set_scoring_list self (Some (scoring_list ++ [out_proj]))).

Fixpoint build_heads (config : MTDNNConfig.t) (self : MTDNNModel)
    (items : list (Z * nat)) : result MTDNNModel :=
  match items with
  | [] => Ok self
  | (task, label) :: items' =>
      self ← add_head config self task label;
      build_heads config self items'
  end.

Definition MTDNNModel_init (config : PyVal) : result MTDNNModel :=
  '(base, config) ← MTDNNPretrainedModel_init "MTDNNModel" config;
  bert_model ← BertModel_new ext config;
  let self :=
    mkModel (base_embeddings base) (base_encoder base) (base_pooler base)
      config 0 [] (MTDNNConfig.encoder_type config) bert_model
      (MTDNNConfig.hidden_size config) None None None None None in
  self ← (if decide (encoder_type self = ROBERTA) then
            roberta ← from_pretrained ext (MTDNNConfig.init_checkpoint config);
            let self := set_bert self roberta in
            dim ← getattr "encoder_embed_dim" (enc_embed_dim (bert self));
            let self := set_hidden_size self dim in
            _ ← load_global "LinearPooler";
            hidden_size ← load_global_int "hidden_size";
            Ok (set_pooler self (leaf (LinearPooler hidden_size)))
          else Ok self);
  if MTDNNConfig.dump_feature config then Ok self
  else
    let self := set_decoder_opts self (Some (MTDNNConfig.decoder_opts config)) in
    let self := set_scoring_list self (Some []) in
    let self :=
      if bool_decide (0 < MTDNNConfig.update_bert_opt config)
      then set_bert self (freeze (bert self)) else self in
    let self := set_task_types self (Some (MTDNNConfig.task_types config)) in
    let self := set_task_dropout_p self (Some (MTDNNConfig.tasks_dropout_p config)) in
    let self := set_n_class self (Some (MTDNNConfig.n_class config)) in
    n_class ← getattr "n_class" (n_class self);
    self ← build_heads config self (enumerate n_class);
    _my_init self.

End Construction.

(** The instance as it stands after line 68, before any head is built. *)
Definition fresh_instance (base : BaseModules) (c : MTDNNConfig.t)
    (enc : Encoder) : MTDNNModel :=
  mkModel (base_embeddings base) (base_encoder base) (base_pooler base)
    c 0 [] (MTDNNConfig.encoder_type c) enc (MTDNNConfig.hidden_size c)
    None None None None None.

(** [MTDNNModel.init_encoder] (lines 107-111): the body is [pass]; the
    instance is left as it is, whatever encoder type is asked for. *)
Definition init_encoder (self : MTDNNModel) (requested : Z) : MTDNNModel := self.

(** The module [apply] hands to the function first: the leftmost
    descendant without children. *)
Fixpoint first_visited (m : Module) : Module :=
  match m with
  | Node _ [] => m
  | Node _ (x :: _) => first_visited x
  end.

(** ** A selected task, and a whole session *)

Section Session.
Context (ext : Externals).

(** Lines 147-174 for a task that has been selected: the body of
    [forward] with the decoder option, the task type, the dropout
    module and the scoring head in place of the four reads
    [self.decoder_opts[task_id]], [self.task_types[task_id]],
    [self.dropout_list[task_id]] and [self.scoring_list[task_id]]. *)
Definition run_task (loc : Locals) (premise_mask hyp_mask : option Tensor)
    (decoder_opt : Z) (task_type : TaskType) (dropout head : Module)
    : result Output :=
  if decide (task_type = Span) then
    _ ← py_assert (negb (bool_decide (decoder_opt = 1)));
    sequence_output ← call_module ext dropout [sequence_output loc];
    logits ← call_module ext head [sequence_output];
    chunks ← split1_last logits;
    '(start_scores, end_scores) ← unpack2 chunks;
    let start_scores := squeeze_last start_scores in
    let end_scores := squeeze_last end_scores in
    Ok (SpanScores start_scores end_scores)
  else if decide (task_type = SequenceLabeling) then
    all_encoder_layers ← load_local "all_encoder_layers" (all_encoder_layers loc);
    pooled_output ← py_index all_encoder_layers (-1);
    pooled_output ← call_module ext dropout [pooled_output];
    cols ← size pooled_output 2;
    pooled_output ← view_rows pooled_output cols;
    logits ← call_module ext head [pooled_output];
    Ok (Logits logits)
  else
    if bool_decide (decoder_opt = 1) then
      hyp ← method_receiver "size" hyp_mask;
      max_query ← size hyp 1;
      _ ← py_assert (bool_decide (0 < max_query)%nat);
      premise ← assert_is_not_None premise_mask;
      hyp ← assert_is_not_None hyp_mask;
      hyp_mem ← slice_dim1 (sequence_output loc) max_query;
      logits ← call_module ext head [sequence_output loc; hyp_mem; premise; hyp];
      Ok (Logits logits)
    else
      pooled_output ← call_module ext dropout [pooled_output loc];
      logits ← call_module ext head [pooled_output];
      Ok (Logits logits).

(** [model = MTDNNModel(config)] followed by one call
    [model(input_ids, token_type_ids, attention_mask, premise_mask,
    hyp_mask, task_id)]. *)
Definition construct_and_forward (config : PyVal)
    (input_ids token_type_ids attention_mask : Tensor)
    (premise_mask hyp_mask : option Tensor) (task_id : Z) : result Output :=
  self ← MTDNNModel_init ext config;
  forward ext self input_ids token_type_ids attention_mask premise_mask
    hyp_mask task_id.

End Session.

(** Reduction of the monadic glue once a step is known. *)
Ltac run := cbn [mbind result_bind getattr py_assert negb load_local].

(** ** Sample collaborators, instances and configurations *)

Module Sample.

Definition hidden : nat := 4.

(** The encoder built at line 67, in the convention of
    [transformers.BertModel]: for a [batch × length] input, a sequence
    output of shape batch × length × hidden, held as its batch rows,
    and a pooled vector. *)
Definition bert_encoder : Encoder :=
  mkEncoder
    (Node (OtherModule "BertModel")
       [leaf (Embedding 10 hidden Untouched);
        leaf (BertLayerNorm false Untouched Untouched);
        leaf (Linear hidden hidden Untouched Untouched)])
    true
    (fun ids _ _ =>
       match shape ids with
       | [b; l] =>
           Ok (replicate b (mkTensor [l; hidden] []), mkTensor [b; hidden] [])
       | _ => Raise (ExternalError "input_ids must be batch x length")
       end)
    (fun _ => Raise (AttributeError "extract_features"))
    None.

(** A RoBERTa-like encoder, reached through [extract_features]. *)
Definition roberta_encoder : Encoder :=
  mkEncoder
    (leaf (OtherModule "RobertaHubInterface"))
    true
    (fun _ _ _ => Raise (TypeError "forward() got unexpected arguments"))
    (fun ids =>
       match shape ids with
       | [b; l] => Ok (mkTensor [b; l; hidden] [])
       | _ => Raise (ExternalError "input_ids must be batch x length")
       end)
    (Some hidden).

Definition base_modules : BaseModules :=
  mkBase (Node (OtherModule "BertEmbeddings")
            [leaf (Embedding 10 hidden Untouched);
             leaf (BertLayerNorm false Untouched Untouched)])
         (Node (OtherModule "BertEncoder")
            [leaf (Linear hidden hidden Untouched Untouched)])
         (leaf (LinearPooler hidden)).

(** The base constructor in the manner of [transformers]: it makes
    the check of lines 41-48 itself, before anything else. *)
Definition ext : Externals :=
  mkExternals
    (fun v =>
       match v with
       | PyConfig _ => Ok base_modules
       | _ => Raise (ValueError (config_error_message "MTDNNModel"))
       end)
    (fun _ => Ok bert_encoder)
    (fun _ => Ok roberta_encoder)
    (fun _ _ => Raise (ExternalError "opaque module")).


(** Two tasks: task 0 a span task, task 1 a classification task with
    three classes, both with the default decoder option. *)
Definition two_tasks (et : EncoderModelType) (dump : bool) : MTDNNConfig.t :=
  {| MTDNNConfig.encoder_type := et;
     MTDNNConfig.init_checkpoint := "checkpoint.pt";
     MTDNNConfig.hidden_size := hidden;
     MTDNNConfig.dump_feature := dump;
     MTDNNConfig.decoder_opts := [0; 0];
     MTDNNConfig.update_bert_opt := 0;
     MTDNNConfig.task_types := [Span; Other];
     MTDNNConfig.tasks_dropout_p := [(1 # 10)%Q; (1 # 10)%Q];
     MTDNNConfig.n_class := [2%nat; 3%nat];
     MTDNNConfig.enable_variational_dropout := false |}.

(** No task at all. *)
Definition no_task : MTDNNConfig.t :=
  {| MTDNNConfig.encoder_type := BERT;
     MTDNNConfig.init_checkpoint := "checkpoint.pt";
     MTDNNConfig.hidden_size := hidden;
     MTDNNConfig.dump_feature := false;
     MTDNNConfig.decoder_opts := [];
     MTDNNConfig.update_bert_opt := 0;
     MTDNNConfig.task_types := [];
     MTDNNConfig.tasks_dropout_p := [];
     MTDNNConfig.n_class := [];
     MTDNNConfig.enable_variational_dropout := false |}.

Definition dropout : Module := leaf (DropoutWrapper (1 # 10) false).

(** An instance carrying the heads lines 91-103 describe for the given
    task types, decoder options and class counts. *)
Definition instance (et : EncoderModelType) (types : list TaskType)
    (opts : list Z) (classes : list nat) : MTDNNModel :=
  mkModel (base_embeddings base_modules) (base_encoder base_modules)
    (base_pooler base_modules)
    (two_tasks et false) 0
    ((fun _ => dropout) <$> types)
    et
    (match et with BERT => bert_encoder | ROBERTA => roberta_encoder end)
    hidden
    (Some opts)
    (Some ((fun '(t, n) =>
              leaf (Linear hidden
                      (match t with Span => 2%nat | _ => n end)
                      Untouched Untouched)) <$> zip types classes))
    (Some types)
    (Some ((fun _ => (1 # 10)%Q) <$> types))
    (Some classes).

Definition input_ids : Tensor := mkTensor [8%nat; 16%nat] [].

End Sample.

Module Cases.

(** What the sample BERT encoder leaves in the local variables for
    [Sample.input_ids]. *)
Definition bert_locals : Locals :=
  mkLocals
    (Some (replicate 8 (mkTensor [16; 4]%nat [])))
    (mkTensor [8; 4]%nat []) (mkTensor [16; 4]%nat []).

(** The same for the sample RoBERTa encoder and the base pooler. *)
Definition roberta_locals : Locals :=
  mkLocals None (mkTensor [8; 4]%nat [OpPool 4])
    (mkTensor [8; 16; 4]%nat []).

Definition two_tasks : MTDNNModel :=
  Sample.instance BERT [Span; Other] [0; 0] [2%nat; 3%nat].

Definition tagging : MTDNNModel :=
  Sample.instance BERT [SequenceLabeling] [0] [5%nat].

Definition pairwise : MTDNNModel :=
  Sample.instance BERT [Other] [1] [3%nat].

(** The pairwise task with a scoring head of a class defined elsewhere. *)
Definition pairwise_opaque : MTDNNModel :=
  set_scoring_list (Sample.instance ROBERTA [Other] [1] [3%nat])
    (Some [leaf (OtherModule "SANClassifier")]).

(** A span task whose scoring head has three channels. *)
Definition wide_span : MTDNNModel :=
  set_scoring_list (Sample.instance ROBERTA [Span] [0] [2%nat])
    (Some [leaf (Linear 4 3 Untouched Untouched)]).

Definition span_pairwise_option : MTDNNModel :=
  Sample.instance BERT [Span] [1] [2%nat].

Definition roberta_two_tasks : MTDNNModel :=
  Sample.instance ROBERTA [Span; Other] [0; 0] [2%nat; 3%nat].

(** One class count and no task type; the encoder is to be frozen. *)
Definition no_task_type : MTDNNConfig.t :=
  {| MTDNNConfig.encoder_type := BERT;
     MTDNNConfig.init_checkpoint := "checkpoint.pt";
     MTDNNConfig.hidden_size := Sample.hidden;
     MTDNNConfig.dump_feature := false;
     MTDNNConfig.decoder_opts := [];
     MTDNNConfig.update_bert_opt := 1;
     MTDNNConfig.task_types := [];
     MTDNNConfig.tasks_dropout_p := [];
     MTDNNConfig.n_class := [3%nat];
     MTDNNConfig.enable_variational_dropout := false |}.

(** One sequence labeling task with five classes. *)
Definition tagging_config (et : EncoderModelType) (dump : bool)
    : MTDNNConfig.t :=
  {| MTDNNConfig.encoder_type := et;
     MTDNNConfig.init_checkpoint := "checkpoint.pt";
     MTDNNConfig.hidden_size := Sample.hidden;
     MTDNNConfig.dump_feature := dump;
     MTDNNConfig.decoder_opts := [0];
     MTDNNConfig.update_bert_opt := 0;
     MTDNNConfig.task_types := [SequenceLabeling];
     MTDNNConfig.tasks_dropout_p := [(1 # 10)%Q];
     MTDNNConfig.n_class := [5%nat];
     MTDNNConfig.enable_variational_dropout := false |}.

Definition hyp_mask : Tensor := mkTensor [8; 6]%nat [].

Definition empty_hyp_mask : Tensor := mkTensor [8; 0]%nat [].

End Cases.

(** ** Basic facts about the monad and about indexing *)

Lemma bind_Ok {A B} (r : result A) (f : A → result B) (a : A) :
  r = Ok a → r ≫= f = f a.
Proof. intros ->. reflexivity. Qed.

Lemma bind_Raise {A B} (r : result A) (f : A → result B) (e : exn) :
  r = Raise e → r ≫= f = Raise e.
Proof. intros ->. reflexivity. Qed.

Lemma raises_bind {A B} (r : result A) (f : A → result B) :
  raises r → raises (r ≫= f).
Proof. intros [e ->]. exists e. reflexivity. Qed.

Lemma raises_bind_all {A B} (r : result A) (f : A → result B) :
  (∀ a, raises (f a)) → raises (r ≫= f).
Proof.
  intros Hf. destruct r as [a|e]; simpl.
  - apply Hf.
  - exists e. reflexivity.
Qed.

Lemma raises_bind_Ok {A B} (r : result A) (f : A → result B) :
  (∀ a, r = Ok a → raises (f a)) → raises (r ≫= f).
Proof.
  intros Hf. destruct r as [a|e]; simpl.
  - apply Hf. reflexivity.
  - exists e. reflexivity.
Qed.

Lemma raises_not_Ok {A} (r : result A) (a : A) : raises r → r ≠ Ok a.
Proof. intros [e ->]. discriminate. Qed.

Lemma py_index_nonneg {A} (l : list A) (i : nat) (x : A) :
  l !! i = Some x → py_index l (Z.of_nat i) = Ok x.
Proof.
  intros Hx. unfold py_index.
  rewrite (bool_decide_eq_false_2 (Z.of_nat i < 0)) by lia.
  rewrite bool_decide_eq_false_2 by lia.
  rewrite Nat2Z.id, Hx. reflexivity.
Qed.

(** A negative index within range reads the position counted from the
    end, and the read succeeds. *)
Lemma py_index_negative {A} (l : list A) (i : Z) :
  - Z.of_nat (length l) ≤ i < 0 →
  py_index l i = py_index l (Z.of_nat (length l) + i) ∧
  ∃ x, l !! Z.to_nat (Z.of_nat (length l) + i) = Some x ∧ py_index l i = Ok x.
Proof.
  intros Hi.
  destruct (lookup_lt_is_Some_2 l (Z.to_nat (Z.of_nat (length l) + i)))
    as [x Hx]; [lia|].
  assert (py_index l i = Ok x) as Hneg.
  { unfold py_index.
    rewrite (bool_decide_eq_true_2 (i < 0)) by lia.
    rewrite bool_decide_eq_false_2 by lia.
    rewrite Hx. reflexivity. }
  split.
  - rewrite Hneg. unfold py_index.
    rewrite (bool_decide_eq_false_2 (Z.of_nat (length l) + i < 0)) by lia.
    rewrite bool_decide_eq_false_2 by lia.
    rewrite Hx. reflexivity.
  - exists x. auto.
Qed.

Lemma unsnoc_snoc {A} (l : list A) (x : A) : unsnoc (l ++ [x]) = Some (l, x).
Proof.
  induction l as [|y l IH]; simpl; [reflexivity|].
  rewrite IH. reflexivity.
Qed.

(** ** Shapes *)

Lemma shape_after (x : Tensor) (s : list nat) (op : Op) : shape (after x s op) = s.
Proof. reflexivity. Qed.

Lemma hist_after (x : Tensor) (s : list nat) (op : Op) :
  hist (after x s op) = hist x ++ [op].
Proof. reflexivity. Qed.

Lemma linear_forward_snoc (i o : nat) (x : Tensor) (pre : list nat) :
  shape x = pre ++ [i] →
  linear_forward i o x = Ok (after x (pre ++ [o]) (OpLinear i o)).
Proof.
  intros Hs. unfold linear_forward. rewrite Hs, unsnoc_snoc.
  rewrite bool_decide_eq_true_2 by reflexivity. reflexivity.
Qed.

Lemma split1_last_two (x : Tensor) (pre : list nat) :
  shape x = pre ++ [2%nat] →
  split1_last x =
    Ok [after x (pre ++ [1%nat]) (OpSplit 0); after x (pre ++ [1%nat]) (OpSplit 1)].
Proof.
  intros Hs. unfold split1_last. rewrite Hs, unsnoc_snoc. reflexivity.
Qed.

Lemma squeeze_last_one (x : Tensor) (pre : list nat) :
  shape x = pre ++ [1%nat] → squeeze_last x = after x pre OpSqueeze.
Proof.
  intros Hs. unfold squeeze_last. rewrite Hs, unsnoc_snoc. reflexivity.
Qed.

Lemma view_rows_3d (x : Tensor) (B L H : nat) :
  shape x = [B; L; H] → (0 < H)%nat →
  view_rows x H = Ok (after x [(B * L)%nat; H] OpView).
Proof.
  intros Hs HH. unfold view_rows.
  destruct H as [|h]; [lia|].
  assert (numel x = (B * L * S h)%nat) as ->.
  { unfold numel. rewrite Hs. simpl. lia. }
  rewrite Nat.Div0.mod_mul, Nat.div_mul by lia.
  rewrite bool_decide_eq_true_2 by reflexivity. reflexivity.
Qed.

(** ** Occurrences in strings *)





(** ** Names the module does not bind *)

Arguments load_global : simpl never.
Arguments load_global_int : simpl never.

Lemma load_DropoutWrapper :
  load_global "DropoutWrapper" = Raise (NameError "DropoutWrapper").
Proof. vm_compute. reflexivity. Qed.

Lemma load_BertLayerNorm :
  load_global "BertLayerNorm" = Raise (NameError "BertLayerNorm").
Proof. vm_compute. reflexivity. Qed.

Lemma load_hidden_size :
  load_global_int "hidden_size" = Raise (NameError "hidden_size").
Proof. vm_compute. reflexivity. Qed.

Lemma load_LinearPooler : load_global "LinearPooler" = Ok ObjClass.
Proof. vm_compute. reflexivity. Qed.

(** ** The constructors *)



(** The walk of [apply] fails as soon as the function fails on every
    module: the first module reached is a leaf or a childless node. *)
Lemma apply_raises (fn : Module → result Module) (P : exn → Prop) :
  (∀ m, ∃ e, fn m = Raise e ∧ P e) →
  ∀ t, ∃ e, apply fn t = Raise e ∧ P e.
Proof.
  intros Hfn. fix IH 1. intros [c [|x l]].
  - simpl. apply Hfn.
  - destruct (IH x) as (e & He & HP).
    exists e. split; [|exact HP].
    simpl. rewrite He. reflexivity.
Qed.

Lemma init_weights_raises (self : MTDNNModel) (m : Module) :
  ∃ e, init_weights self m = Raise e ∧
       (e = AttributeError "opt" ∨ e = NameError "BertLayerNorm").
Proof.
  unfold init_weights.
  destruct (isinstance_Linear_or_Embedding m).
  - exists (AttributeError "opt"). split; [reflexivity|]. left. reflexivity.
  - exists (NameError "BertLayerNorm"). rewrite load_BertLayerNorm.
    split; [reflexivity|]. right. reflexivity.
Qed.

Lemma my_init_raises (self : MTDNNModel) : raises (_my_init self).
Proof.
  unfold _my_init.
  destruct (apply_raises (init_weights self) _ (init_weights_raises self)
              (module_tree self)) as (e & He & _).
  exists e. rewrite He. reflexivity.
Qed.

Section ConstructionFacts.
Context (ext : Externals).

Lemma add_head_raises (c : MTDNNConfig.t) (self : MTDNNModel)
    (task : Z) (label : nat) :
  raises (add_head c self task label).
Proof.
  unfold add_head.
  apply raises_bind_all; intros tts.
  apply raises_bind_all; intros tt.
  apply raises_bind. exists (NameError "DropoutWrapper").
  apply load_DropoutWrapper.
Qed.

Lemma build_heads_raises (c : MTDNNConfig.t) (self : MTDNNModel)
    (items : list (Z * nat)) :
  raises (build_heads c self items ≫= _my_init).
Proof.
  destruct items as [|[task label] items]; cbn [build_heads].
  - apply my_init_raises.
  - apply raises_bind, raises_bind, add_head_raises.
Qed.

Lemma pretrained_init_Ok (class_name : string) (v : PyVal)
    (base : BaseModules) (c : MTDNNConfig.t) :
  MTDNNPretrainedModel_init ext class_name v = Ok (base, c) →
  v = PyConfig c ∧ super_init ext v = Ok base.
Proof.
  unfold MTDNNPretrainedModel_init.
  destruct (super_init ext v) as [b|e]; [|discriminate].
  destruct v; try discriminate.
  cbn. intros [= -> ->]. split; reflexivity.
Qed.

(** With the RoBERTa encoder type, lines 70-72 do not complete. *)
Lemma roberta_branch_raises (self : MTDNNModel) (c : MTDNNConfig.t) :
  raises
    (roberta ← from_pretrained ext (MTDNNConfig.init_checkpoint c);
     let self := set_bert self roberta in
     dim ← getattr "encoder_embed_dim" (enc_embed_dim (bert self));
     let self := set_hidden_size self dim in
     _ ← load_global "LinearPooler";
     hidden_size ← load_global_int "hidden_size";
     Ok (set_pooler self (leaf (LinearPooler hidden_size)))).
Proof.
  apply raises_bind_all; intros roberta. cbv zeta.
  apply raises_bind_all; intros dim.
  rewrite load_LinearPooler, load_hidden_size.
  eexists; reflexivity.
Qed.

(** With [dump_feature] off, no configuration gets through the
    constructor. *)
Lemma init_without_dump_raises (c : MTDNNConfig.t) :
  MTDNNConfig.dump_feature c = false →
  raises (MTDNNModel_init ext (PyConfig c)).
Proof.
  intros Hdump. unfold MTDNNModel_init.
  apply raises_bind_Ok; intros [base c'] [[= <-] _]%pretrained_init_Ok.
  cbv beta iota zeta.
  apply raises_bind_all; intros enc.
  apply raises_bind_all; intros self.
  rewrite Hdump.
  apply raises_bind_all; intros classes.
  apply (build_heads_raises c _ (enumerate classes)).
Qed.

(** With the RoBERTa encoder type, no configuration gets through the
    constructor either, whatever [dump_feature] says. *)
Lemma init_roberta_raises (c : MTDNNConfig.t) :
  MTDNNConfig.encoder_type c = ROBERTA →
  raises (MTDNNModel_init ext (PyConfig c)).
Proof.
  intros Hr. unfold MTDNNModel_init.
  apply raises_bind_Ok; intros [base c'] [[= <-] _]%pretrained_init_Ok.
  cbv beta iota zeta.
  apply raises_bind_all; intros enc.
  apply raises_bind.
  cbn [encoder_type]. rewrite decide_True by exact Hr.
  apply roberta_branch_raises.
Qed.

End ConstructionFacts.

Lemma bind_Ok_inv {A B} (r : result A) (f : A → result B) (b : B) :
  r ≫= f = Ok b → ∃ a, r = Ok a ∧ f a = Ok b.
Proof.
  destruct r as [a|e]; [|discriminate].
  intros H. exists a. split; [reflexivity|exact H].
Qed.

Section ConstructionResults.
Context (ext : Externals).

Lemma pretrained_init_config (class_name : string) (c : MTDNNConfig.t)
    (base : BaseModules) :
  super_init ext (PyConfig c) = Ok base →
  MTDNNPretrainedModel_init ext class_name (PyConfig c) = Ok (base, c).
Proof.
  intros Hs. unfold MTDNNPretrainedModel_init. rewrite Hs. reflexivity.
Qed.

(** What the constructor returns in feature-dump mode, when it
    returns. *)
Lemma init_dump_Ok (c : MTDNNConfig.t) (self : MTDNNModel) :
  MTDNNConfig.dump_feature c = true →
  MTDNNModel_init ext (PyConfig c) = Ok self →
  ∃ base enc,
    super_init ext (PyConfig c) = Ok base ∧
    BertModel_new ext c = Ok enc ∧
    MTDNNConfig.encoder_type c ≠ ROBERTA ∧
    self = fresh_instance base c enc.
Proof.
  intros Hdump H. unfold MTDNNModel_init in H.
  apply bind_Ok_inv in H as ([base c'] & E1 & H).
  apply pretrained_init_Ok in E1 as [[= <-] Hs].
  cbv beta iota zeta in H.
  apply bind_Ok_inv in H as (enc & E2 & H).
  apply bind_Ok_inv in H as (self' & E3 & H).
  rewrite Hdump in H. injection H as <-.
  cbn [encoder_type] in E3.
  exists base, enc. repeat split; try assumption.
  - intros Hr. rewrite decide_True in E3 by exact Hr.
    exact (raises_not_Ok _ _ (roberta_branch_raises ext _ c) E3).
  - destruct (decide (MTDNNConfig.encoder_type c = ROBERTA)) as [Hr|Hb].
    + destruct (raises_not_Ok _ _ (roberta_branch_raises ext _ c) E3).
    + injection E3 as <-. reflexivity.
Qed.

(** In feature-dump mode the constructor returns as soon as the
    collaborators do, for every encoder type but RoBERTa. *)
Lemma init_dump_returns (c : MTDNNConfig.t) (base : BaseModules)
    (enc : Encoder) :
  MTDNNConfig.dump_feature c = true →
  MTDNNConfig.encoder_type c ≠ ROBERTA →
  super_init ext (PyConfig c) = Ok base →
  BertModel_new ext c = Ok enc →
  MTDNNModel_init ext (PyConfig c) = Ok (fresh_instance base c enc).
Proof.
  intros Hdump Hb Hs He. unfold MTDNNModel_init.
  rewrite (bind_Ok _ _ _ (pretrained_init_config "MTDNNModel" c base Hs)).
  cbv beta iota zeta.
  rewrite (bind_Ok _ _ _ He).
  cbn [encoder_type]. rewrite decide_False by exact Hb.
  rewrite Hdump. reflexivity.
Qed.

End ConstructionResults.

(** ** The dispatcher *)

Section ForwardFacts.
Context (ext : Externals).

Lemma forward_encode (self : MTDNNModel) (ids tt am : Tensor)
    (pm hm : option Tensor) (task_id : Z) (loc : Locals) :
  encode ext self ids tt am = Ok loc →
  forward ext self ids tt am pm hm task_id = dispatch ext self loc pm hm task_id.
Proof. intros H. unfold forward. rewrite H. reflexivity. Qed.

Lemma forward_raises (self : MTDNNModel) (ids tt am : Tensor)
    (pm hm : option Tensor) (task_id : Z) :
  (∀ loc, raises (dispatch ext self loc pm hm task_id)) →
  raises (forward ext self ids tt am pm hm task_id).
Proof. intros H. unfold forward. apply raises_bind_all, H. Qed.

Lemma dispatch_without_decoder_opts (self : MTDNNModel) (loc : Locals)
    (pm hm : option Tensor) (task_id : Z) :
  decoder_opts self = None →
  dispatch ext self loc pm hm task_id = Raise (AttributeError "decoder_opts").
Proof. intros H. unfold dispatch. rewrite H. reflexivity. Qed.

(** The per-layer outputs are bound on the BERT path only. *)
Lemma encode_all_encoder_layers (self : MTDNNModel) (ids tt am : Tensor)
    (loc : Locals) :
  encode ext self ids tt am = Ok loc →
  (is_Some (all_encoder_layers loc) ↔ encoder_type self ≠ ROBERTA).
Proof.
  unfold encode.
  destruct (decide (encoder_type self = ROBERTA)) as [Hr|Hb]; intros H.
  - apply bind_Ok_inv in H as (s & _ & H).
    apply bind_Ok_inv in H as (p & _ & H).
    injection H as <-. cbn. split; [intros [? [=]]|congruence].
  - apply bind_Ok_inv in H as ([layers p] & _ & H).
    apply bind_Ok_inv in H as (s & _ & H).
    injection H as <-. cbn. split; [auto|eauto].
Qed.

Lemma dispatch_pairwise_None (self : MTDNNModel) (loc : Locals)
    (pm : option Tensor) (task_id : Z) (dos : list Z) (tts : list TaskType) :
  decoder_opts self = Some dos → py_index dos task_id = Ok 1 →
  task_types self = Some tts → py_index tts task_id = Ok Other →
  dispatch ext self loc pm None task_id = Raise (AttributeError "size").
Proof.
  intros Hd Ho Ht Hty. unfold dispatch.
  rewrite Hd. cbn [getattr mbind result_bind]. rewrite Ho.
  rewrite Ht. cbn [getattr mbind result_bind]. rewrite Hty.
  reflexivity.
Qed.

Lemma dispatch_sequence_labeling_unbound (self : MTDNNModel) (loc : Locals)
    (pm hm : option Tensor) (task_id o : Z) (dos : list Z)
    (tts : list TaskType) :
  all_encoder_layers loc = None →
  decoder_opts self = Some dos → py_index dos task_id = Ok o →
  task_types self = Some tts → py_index tts task_id = Ok SequenceLabeling →
  dispatch ext self loc pm hm task_id =
    Raise (UnboundLocalError "all_encoder_layers").
Proof.
  intros Hl Hd Ho Ht Hty. unfold dispatch.
  rewrite Hd. cbn [getattr mbind result_bind]. rewrite Ho.
  rewrite Ht. cbn [getattr mbind result_bind]. rewrite Hty.
  rewrite Hl. reflexivity.
Qed.

Lemma dispatch_span (self : MTDNNModel) (loc : Locals)
    (pm hm : option Tensor) (task_id o : Z) (dos : list Z)
    (tts : list TaskType) (sl : list Module) (B L H : nat) (p : Q) (v : bool)
    (w b : ParamData) :
  shape (sequence_output loc) = [B; L; H] →
  decoder_opts self = Some dos → py_index dos task_id = Ok o → o ≠ 1 →
  task_types self = Some tts → py_index tts task_id = Ok Span →
  py_index (dropout_list self) task_id = Ok (leaf (DropoutWrapper p v)) →
  scoring_list self = Some sl →
  py_index sl task_id = Ok (leaf (Linear H 2 w b)) →
  dispatch ext self loc pm hm task_id =
    Ok (SpanScores
          (mkTensor [B; L]
             (hist (sequence_output loc) ++
              [OpDropout p v; OpLinear H 2; OpSplit 0; OpSqueeze]))
          (mkTensor [B; L]
             (hist (sequence_output loc) ++
              [OpDropout p v; OpLinear H 2; OpSplit 1; OpSqueeze]))).
Proof.
  intros Hs Hd Ho Hne Ht Hty Hdrop Hsl Hhead. unfold dispatch.
  rewrite Hd; run. rewrite Ho; run.
  rewrite Ht; run. rewrite Hty; run.
  rewrite decide_True by reflexivity.
  rewrite (bool_decide_eq_false_2 (o = 1)) by exact Hne. run.
  rewrite Hdrop; run.
  cbn [call_module class_of leaf]. run. rewrite Hsl; run. rewrite Hhead; run.
  cbn [call_module class_of leaf].
  rewrite (linear_forward_snoc H 2 _ [B; L]) by (rewrite shape_after; exact Hs). run.
  rewrite (split1_last_two _ [B; L]) by reflexivity. run.
  cbn [unpack2]. run.
  rewrite !(squeeze_last_one _ [B; L]) by reflexivity.
  unfold after. cbn [hist shape]. rewrite <- !app_assoc. reflexivity.
Qed.

(** A scoring head of any other width makes the span branch fail at
    the unpacking of the chunks. *)
Lemma dispatch_span_other_width (self : MTDNNModel) (loc : Locals)
    (pm hm : option Tensor) (task_id o : Z) (dos : list Z)
    (tts : list TaskType) (sl : list Module) (B L H k : nat) (p : Q) (v : bool)
    (w b : ParamData) :
  shape (sequence_output loc) = [B; L; H] →
  decoder_opts self = Some dos → py_index dos task_id = Ok o → o ≠ 1 →
  task_types self = Some tts → py_index tts task_id = Ok Span →
  py_index (dropout_list self) task_id = Ok (leaf (DropoutWrapper p v)) →
  scoring_list self = Some sl →
  py_index sl task_id = Ok (leaf (Linear H k w b)) →
  k ≠ 2%nat →
  ∃ msg, dispatch ext self loc pm hm task_id = Raise (ValueError msg).
Proof.
  intros Hs Hd Ho Hne Ht Hty Hdrop Hsl Hhead Hk. unfold dispatch.
  rewrite Hd; run. rewrite Ho; run.
  rewrite Ht; run. rewrite Hty; run.
  rewrite decide_True by reflexivity.
  rewrite (bool_decide_eq_false_2 (o = 1)) by exact Hne. run.
  rewrite Hdrop; run.
  cbn [call_module class_of leaf]. run. rewrite Hsl; run. rewrite Hhead; run.
  cbn [call_module class_of leaf].
  rewrite (linear_forward_snoc H k _ [B; L]) by (rewrite shape_after; exact Hs).
  run. unfold split1_last. rewrite shape_after, unsnoc_snoc.
  destruct k as [|[|[|k]]]; [| |lia|]; eexists; reflexivity.
Qed.

Lemma dispatch_sequence_labeling (self : MTDNNModel) (loc : Locals)
    (pm hm : option Tensor) (task_id o : Z) (dos : list Z)
    (tts : list TaskType) (sl : list Module) (layers : list Tensor)
    (last : Tensor) (B L H n : nat) (p : Q) (v : bool) (w b : ParamData) :
  all_encoder_layers loc = Some layers →
  py_index layers (-1) = Ok last →
  shape last = [B; L; H] → (0 < H)%nat →
  decoder_opts self = Some dos → py_index dos task_id = Ok o →
  task_types self = Some tts → py_index tts task_id = Ok SequenceLabeling →
  py_index (dropout_list self) task_id = Ok (leaf (DropoutWrapper p v)) →
  scoring_list self = Some sl →
  py_index sl task_id = Ok (leaf (Linear H n w b)) →
  dispatch ext self loc pm hm task_id =
    Ok (Logits
          (mkTensor [(B * L)%nat; n]
             (hist last ++ [OpDropout p v; OpView; OpLinear H n]))).
Proof.
  intros Hl Hlast Hs HH Hd Ho Ht Hty Hdrop Hsl Hhead. unfold dispatch.
  rewrite Hd; run. rewrite Ho; run.
  rewrite Ht; run. rewrite Hty; run.
  rewrite decide_False by discriminate.
  rewrite decide_True by reflexivity.
  rewrite Hl; run. rewrite Hlast; run. rewrite Hdrop; run.
  cbn [call_module class_of leaf]. run.
  unfold size at 1. rewrite shape_after, Hs. cbn [lookup list_lookup]. run.
  rewrite (view_rows_3d _ B L H) by (rewrite ?shape_after; auto). run.
  rewrite Hsl; run. rewrite Hhead; run.
  cbn [call_module class_of leaf].
  rewrite (linear_forward_snoc H n _ [(B * L)%nat]) by reflexivity.
  unfold after. cbn [hist shape]. rewrite <- !app_assoc. reflexivity.
Qed.

Lemma dispatch_negative (self : MTDNNModel) (loc : Locals)
    (pm hm : option Tensor) (task_id : Z) (n : nat) (dos : list Z)
    (tts : list TaskType) (sl : list Module) :
  decoder_opts self = Some dos → task_types self = Some tts →
  scoring_list self = Some sl →
  length dos = n → length tts = n → length (dropout_list self) = n →
  length sl = n →
  - Z.of_nat n ≤ task_id < 0 →
  dispatch ext self loc pm hm task_id =
  dispatch ext self loc pm hm (Z.of_nat n + task_id).
Proof.
  intros Hd Ht Hsl Ldos Ltts Ldrop Lsl Hid. unfold dispatch.
  rewrite Hd, Ht, Hsl. run.
  rewrite (proj1 (py_index_negative dos task_id ltac:(lia))), Ldos.
  rewrite (proj1 (py_index_negative tts task_id ltac:(lia))), Ltts.
  rewrite (proj1 (py_index_negative (dropout_list self) task_id ltac:(lia))), Ldrop.
  rewrite (proj1 (py_index_negative sl task_id ltac:(lia))), Lsl.
  reflexivity.
Qed.

End ForwardFacts.

(** ** Results on construction *)

(** C1.  The claim is that a configuration with [dump_feature] off and n
    tasks constructs, with n dropout modules and n scoring heads in task
    order.  On the two-task configuration (a span task, then a
    three-class task) the constructor does not return: the first turn of
    the head loop looks up [DropoutWrapper], a name the module does not
    bind, and raises [NameError]; whatever the collaborators do, no
    instance comes out. *)
Theorem two_task_construction_raises :
  MTDNNModel_init Sample.ext (PyConfig (Sample.two_tasks BERT false))
    = Raise (NameError "DropoutWrapper") ∧
  ∀ ext, raises (MTDNNModel_init ext (PyConfig (Sample.two_tasks BERT false))).
Proof.
  split.
  - vm_compute. reflexivity.
  - intros ext. apply init_without_dump_raises. reflexivity.
Qed.

(** C2.  The claim is that a RoBERTa configuration constructs and
    installs a pooling adapter.  On the code the constructor reaches
    [LinearPooler(hidden_size)] and raises [NameError]: [hidden_size] is
    neither a local nor a global name (the value lives in
    [self.hidden_size]).  This holds with [dump_feature] on or off and
    for any collaborators, so no RoBERTa instance is ever returned. *)
Theorem roberta_construction_raises :
  (∀ dump,
     MTDNNModel_init Sample.ext (PyConfig (Sample.two_tasks ROBERTA dump))
       = Raise (NameError "hidden_size")) ∧
  ∀ ext dump,
    raises (MTDNNModel_init ext (PyConfig (Sample.two_tasks ROBERTA dump))).
Proof.
  split.
  - intros [|]; vm_compute; reflexivity.
  - intros ext dump. apply init_roberta_raises. reflexivity.
Qed.

(** C6.  The claim is that after construction every linear and embedding
    weight is a normal sample of deviation 0.02 times the init ratio,
    every linear bias is zero and every normalisation module has scale
    one and shift zero.  On the code [_my_init] never completes: on the
    first module it reaches, [init_weights] raises [AttributeError] for
    [self.opt] (linear or embedding module) or [NameError] for
    [BertLayerNorm] (any other module).  The constructor of a
    configuration without tasks fails there. *)
Theorem my_init_never_completes :
  (∀ self, ∃ e, _my_init self = Raise e ∧
                (e = AttributeError "opt" ∨ e = NameError "BertLayerNorm")) ∧
  MTDNNModel_init Sample.ext (PyConfig Sample.no_task)
    = Raise (AttributeError "opt").
Proof.
  split.
  - intros self. unfold _my_init.
    destruct (apply_raises (init_weights self) _ (init_weights_raises self)
                (module_tree self)) as (e & He & HP).
    exists e. rewrite He. split; [reflexivity|exact HP].
  - vm_compute. reflexivity.
Qed.



(** C8.  In feature-dump mode the instance the constructor returns has
    an empty dropout list and no scoring list (nor decoder options or
    task types), and every [forward] call on it raises.  The constructor
    does return such an instance whenever the collaborators return and
    the encoder type is not RoBERTa. *)
Theorem dump_feature_no_heads (ext : Externals) (c : MTDNNConfig.t)
    (self : MTDNNModel) :
  MTDNNConfig.dump_feature c = true →
  MTDNNModel_init ext (PyConfig c) = Ok self →
  dropout_list self = [] ∧
  scoring_list self = None ∧
  decoder_opts self = None ∧
  task_types self = None ∧
  (∀ ids tt am pm hm task_id,
     raises (forward ext self ids tt am pm hm task_id)) ∧
  (∀ c' base enc,
     MTDNNConfig.dump_feature c' = true →
     MTDNNConfig.encoder_type c' ≠ ROBERTA →
     super_init ext (PyConfig c') = Ok base →
     BertModel_new ext c' = Ok enc →
     returns (MTDNNModel_init ext (PyConfig c'))).
Proof.
  intros Hdump Hinit.
  destruct (init_dump_Ok ext c self Hdump Hinit) as (base & enc & _ & _ & _ & ->).
  repeat split.
  - intros ids tt am pm hm task_id. apply forward_raises. intros loc.
    rewrite dispatch_without_decoder_opts by reflexivity.
    eexists; reflexivity.
  - intros c' base' enc' Hd Hb Hs He. eexists.
    apply (init_dump_returns ext c' base' enc' Hd Hb Hs He).
Qed.

Lemma dump_feature_no_heads_witness :
  MTDNNModel_init Sample.ext (PyConfig (Sample.two_tasks BERT true))
    = Ok (fresh_instance Sample.base_modules (Sample.two_tasks BERT true)
            Sample.bert_encoder) ∧
  raises (forward Sample.ext
            (fresh_instance Sample.base_modules (Sample.two_tasks BERT true)
               Sample.bert_encoder)
            Sample.input_ids Sample.input_ids Sample.input_ids None None 0).
Proof.
  split; [vm_compute; reflexivity|].
  destruct (dump_feature_no_heads Sample.ext (Sample.two_tasks BERT true)
              (fresh_instance Sample.base_modules (Sample.two_tasks BERT true)
                 Sample.bert_encoder))
    as (_ & _ & _ & _ & H & _);
    [reflexivity | vm_compute; reflexivity | apply H].
Defined.

(** ** Results on the dispatcher *)

(** C3.  For a task of type [Other] whose decoder option is the pairwise
    code 1, a call with [hyp_mask=None] raises: [forward] returns no
    value at all, so in particular not the logits of the default path.
    Once the encoding step has returned, the exception is the
    [AttributeError] of [hyp_mask.size(1)], raised before the three
    assertions are reached. *)
Theorem pairwise_without_hyp_mask_fails (ext : Externals) (self : MTDNNModel)
    (ids tt am : Tensor) (pm : option Tensor) (task_id : Z)
    (dos : list Z) (tts : list TaskType) :
  decoder_opts self = Some dos → py_index dos task_id = Ok 1 →
  task_types self = Some tts → py_index tts task_id = Ok Other →
  raises (forward ext self ids tt am pm None task_id) ∧
  (∀ out, forward ext self ids tt am pm None task_id ≠ Ok out) ∧
  (∀ loc, encode ext self ids tt am = Ok loc →
     forward ext self ids tt am pm None task_id
       = Raise (AttributeError "size")).
Proof.
  intros Hd Ho Ht Hty.
  assert (raises (forward ext self ids tt am pm None task_id)) as Hr.
  { apply forward_raises. intros loc.
    rewrite (dispatch_pairwise_None ext self loc pm task_id dos tts) by assumption.
    eexists; reflexivity. }
  split; [exact Hr|]. split.
  - intros out. apply raises_not_Ok, Hr.
  - intros loc Hloc. rewrite (forward_encode ext _ _ _ _ _ _ _ loc Hloc).
    apply (dispatch_pairwise_None ext self loc pm task_id dos tts); assumption.
Qed.

Lemma pairwise_without_hyp_mask_fails_witness :
  forward Sample.ext (Sample.instance BERT [Span; Other] [0; 1] [2%nat; 3%nat])
    Sample.input_ids Sample.input_ids Sample.input_ids
    (Some Sample.input_ids) None 1
  = Raise (AttributeError "size").
Proof.
  destruct (pairwise_without_hyp_mask_fails Sample.ext
              (Sample.instance BERT [Span; Other] [0; 1] [2%nat; 3%nat])
              Sample.input_ids Sample.input_ids Sample.input_ids
              (Some Sample.input_ids) 1 [0; 1] [Span; Other])
    as (_ & _ & H); [reflexivity ..|].
  apply (H Cases.bert_locals).
  reflexivity.
Defined.

(** Whatever the constructor returns has no decoder options, so that
    a call on it stops at line 145 at the latest. *)
Lemma init_Ok_no_decoder_opts (ext : Externals) (arg : PyVal)
    (self : MTDNNModel) :
  MTDNNModel_init ext arg = Ok self → decoder_opts self = None.
Proof.
  intros H.
  assert (∃ c, arg = PyConfig c) as [c ->].
  { unfold MTDNNModel_init in H.
    apply bind_Ok_inv in H as ([base c] & E & _).
    apply pretrained_init_Ok in E as [-> _]. eauto. }
  destruct (MTDNNConfig.dump_feature c) eqn:Hdump.
  - destruct (init_dump_Ok ext c self Hdump H) as (base & enc & _ & _ & _ & ->).
    reflexivity.
  - destruct (raises_not_Ok _ self (init_without_dump_raises ext c Hdump) H).
Qed.

(** No call on a freshly constructed model returns a value. *)
Lemma construct_and_forward_raises (ext : Externals) (arg : PyVal)
    (ids tt am : Tensor) (pm hm : option Tensor) (task_id : Z) :
  raises (construct_and_forward ext arg ids tt am pm hm task_id).
Proof.
  unfold construct_and_forward. apply raises_bind_Ok. intros self Hinit.
  apply forward_raises. intros loc.
  rewrite (dispatch_without_decoder_opts ext self loc pm hm task_id
             (init_Ok_no_decoder_opts ext arg self Hinit)).
  eexists; reflexivity.
Qed.

(** C4.  The claim is that for every task declared with type [Span]
    a call returns a pair of score tensors of shape (batch, length).
    On the code no such pair is ever returned for a declared task: the
    two-task configuration (task 0 a span task) does not construct,
    the head loop raising [NameError] for [DropoutWrapper], so the call
    with task id 0 is never reached; and for every configuration
    declaring a span task, whatever the collaborators and
    [dump_feature], constructing the model and calling it on that task
    raises. *)
Theorem span_scores_never_returned :
  construct_and_forward Sample.ext (PyConfig (Sample.two_tasks BERT false))
    Sample.input_ids Sample.input_ids Sample.input_ids None None 0
    = Raise (NameError "DropoutWrapper") ∧
  ∀ ext c ids tt am pm hm (i : nat),
    MTDNNConfig.task_types c !! i = Some Span →
    raises (construct_and_forward ext (PyConfig c) ids tt am pm hm
              (Z.of_nat i)).
Proof.
  split.
  - vm_compute. reflexivity.
  - intros ext c ids tt am pm hm i _. apply construct_and_forward_raises.
Qed.

(** C5.  The claim is that for every task declared with type
    [SequenceLabeling] a call returns per-token logits whose last
    dimension is the class count.  On the code no logits are ever
    returned for a declared task: the one-task configuration with five
    classes does not construct, the head loop raising [NameError] for
    [DropoutWrapper]; and for every configuration declaring such a
    task, whatever the collaborators and [dump_feature], constructing
    the model and calling it on that task raises. *)
Theorem sequence_labeling_logits_never_returned :
  construct_and_forward Sample.ext
    (PyConfig (Cases.tagging_config BERT false))
    Sample.input_ids Sample.input_ids Sample.input_ids None None 0
    = Raise (NameError "DropoutWrapper") ∧
  ∀ ext c ids tt am pm hm (i : nat),
    MTDNNConfig.task_types c !! i = Some SequenceLabeling →
    raises (construct_and_forward ext (PyConfig c) ids tt am pm hm
              (Z.of_nat i)).
Proof.
  split.
  - vm_compute. reflexivity.
  - intros ext c ids tt am pm hm i _. apply construct_and_forward_raises.
Qed.

(** C9.  The [SequenceLabeling] branch reads [all_encoder_layers], which
    the encoding step binds exactly when the encoder type is not
    RoBERTa.  With the RoBERTa encoder type a [SequenceLabeling] task
    never returns logits: [forward] raises, and once the encoding step
    has returned the exception is [UnboundLocalError] for that name. *)
Theorem sequence_labeling_needs_bert_path (ext : Externals)
    (self : MTDNNModel) (ids tt am : Tensor) (pm hm : option Tensor)
    (task_id o : Z) (dos : list Z) (tts : list TaskType) :
  decoder_opts self = Some dos → py_index dos task_id = Ok o →
  task_types self = Some tts → py_index tts task_id = Ok SequenceLabeling →
  (∀ loc, encode ext self ids tt am = Ok loc →
     (is_Some (all_encoder_layers loc) ↔ encoder_type self ≠ ROBERTA)) ∧
  (encoder_type self = ROBERTA →
     raises (forward ext self ids tt am pm hm task_id) ∧
     ∀ loc, encode ext self ids tt am = Ok loc →
       forward ext self ids tt am pm hm task_id
         = Raise (UnboundLocalError "all_encoder_layers")).
Proof.
  intros Hd Ho Ht Hty. split.
  - intros loc. apply encode_all_encoder_layers.
  - intros Hr.
    assert (∀ loc, encode ext self ids tt am = Ok loc →
              forward ext self ids tt am pm hm task_id
                = Raise (UnboundLocalError "all_encoder_layers")) as Hu.
    { intros loc Hloc. rewrite (forward_encode ext _ _ _ _ _ _ _ loc Hloc).
      apply (dispatch_sequence_labeling_unbound ext self loc pm hm task_id o
               dos tts); try assumption.
      destruct (all_encoder_layers loc) as [layers|] eqn:El; [|reflexivity].
      destruct (proj1 (encode_all_encoder_layers ext self ids tt am loc Hloc));
        [rewrite El; eauto | exact Hr]. }
    split; [|exact Hu].
    destruct (encode ext self ids tt am) as [loc|e] eqn:El.
    + exists (UnboundLocalError "all_encoder_layers"). apply (Hu loc eq_refl).
    + exists e. unfold forward. rewrite El. reflexivity.
Qed.

Lemma sequence_labeling_needs_bert_path_witness :
  raises (forward Sample.ext
            (Sample.instance ROBERTA [SequenceLabeling] [0] [5%nat])
            Sample.input_ids Sample.input_ids Sample.input_ids None None 0).
Proof.
  destruct (sequence_labeling_needs_bert_path Sample.ext
              (Sample.instance ROBERTA [SequenceLabeling] [0] [5%nat])
              Sample.input_ids Sample.input_ids Sample.input_ids None None
              0 0 [0] [SequenceLabeling])
    as (_ & H); [reflexivity ..|].
  apply H. reflexivity.
Defined.

(** Once the four reads have succeeded, the dispatcher runs the
    selected task. *)
Lemma dispatch_selected (ext : Externals) (self : MTDNNModel) (loc : Locals)
    (pm hm : option Tensor) (task_id o : Z) (dos : list Z)
    (tts : list TaskType) (ty : TaskType) (sl : list Module) (d h : Module) :
  decoder_opts self = Some dos → py_index dos task_id = Ok o →
  task_types self = Some tts → py_index tts task_id = Ok ty →
  py_index (dropout_list self) task_id = Ok d →
  scoring_list self = Some sl → py_index sl task_id = Ok h →
  dispatch ext self loc pm hm task_id = run_task ext loc pm hm o ty d h.
Proof.
  intros Hd Ho Ht Hty Hdrop Hsl Hhead. unfold dispatch, run_task.
  rewrite Hd; run. rewrite Ho; run.
  rewrite Ht; run. rewrite Hty; run.
  rewrite Hdrop, Hsl. run. rewrite Hhead.
  destruct ty.
  - rewrite decide_True by reflexivity. reflexivity.
  - rewrite decide_False by discriminate.
    rewrite decide_True by reflexivity. reflexivity.
  - rewrite !decide_False by discriminate.
    destruct (bool_decide (o = 1)); reflexivity.
Qed.

(** C10.  On an instance whose four task-indexed sequences have length
    n, a task id in [-n, -1] is not rejected: the decoder option, the
    task type, the dropout module and the scoring head at position
    n + task_id exist, and the call is the encoding step followed by
    the body of the dispatcher run on exactly these four; it is also
    what the call with task id n + task_id gives. *)
Theorem negative_task_id_selects_from_end (ext : Externals)
    (self : MTDNNModel) (ids tt am : Tensor) (pm hm : option Tensor)
    (task_id : Z) (n : nat) (dos : list Z) (tts : list TaskType)
    (sl : list Module) :
  decoder_opts self = Some dos → task_types self = Some tts →
  scoring_list self = Some sl →
  length dos = n → length tts = n → length (dropout_list self) = n →
  length sl = n →
  - Z.of_nat n ≤ task_id < 0 →
  ∃ o ty d h,
    dos !! Z.to_nat (Z.of_nat n + task_id) = Some o ∧
    tts !! Z.to_nat (Z.of_nat n + task_id) = Some ty ∧
    dropout_list self !! Z.to_nat (Z.of_nat n + task_id) = Some d ∧
    sl !! Z.to_nat (Z.of_nat n + task_id) = Some h ∧
    forward ext self ids tt am pm hm task_id =
      (loc ← encode ext self ids tt am; run_task ext loc pm hm o ty d h) ∧
    forward ext self ids tt am pm hm task_id
      = forward ext self ids tt am pm hm (Z.of_nat n + task_id).
Proof.
  intros Hd Ht Hsl Ldos Ltts Ldrop Lsl Hid.
  destruct (py_index_negative dos task_id) as (_ & o & Ho & Ho'); [lia|].
  destruct (py_index_negative tts task_id) as (_ & ty & Hty & Hty'); [lia|].
  destruct (py_index_negative (dropout_list self) task_id)
    as (_ & d & Hdr & Hdr'); [lia|].
  destruct (py_index_negative sl task_id) as (_ & h & Hh & Hh'); [lia|].
  rewrite Ldos in Ho. rewrite Ltts in Hty. rewrite Ldrop in Hdr.
  rewrite Lsl in Hh.
  exists o, ty, d, h. repeat split; try assumption.
  - unfold forward.
    destruct (encode ext self ids tt am) as [loc|e]; [|reflexivity].
    run. apply (dispatch_selected ext self loc pm hm task_id o dos tts ty sl d h);
      assumption.
  - unfold forward.
    destruct (encode ext self ids tt am) as [loc|e]; [|reflexivity].
    apply (dispatch_negative ext self loc pm hm task_id n dos tts sl);
      assumption.
Qed.

Lemma negative_task_id_selects_from_end_witness :
  forward Sample.ext Cases.two_tasks
    Sample.input_ids Sample.input_ids Sample.input_ids None None (-1)
  = Ok (Logits (mkTensor [8; 3]%nat
                  [OpDropout (1 # 10) false; OpLinear 4 3])).
Proof.
  destruct (negative_task_id_selects_from_end Sample.ext Cases.two_tasks
              Sample.input_ids Sample.input_ids Sample.input_ids None None
              (-1) 2%nat [0; 0] [Span; Other]
              [leaf (Linear 4 2 Untouched Untouched);
               leaf (Linear 4 3 Untouched Untouched)])
    as (o & ty & d & h & Ho & Hty & Hd & Hh & Hf & _);
    [reflexivity | reflexivity | reflexivity | reflexivity | reflexivity
    | reflexivity | reflexivity | simpl; lia |].
  rewrite Hf.
  vm_compute in Ho, Hty, Hd, Hh.
  injection Ho as <-. injection Hty as <-. injection Hd as <-.
  injection Hh as <-.
  vm_compute. reflexivity.
Defined.

(** ** Further facts on indexing and on the dispatcher *)

Lemma py_index_minus_one {A} (l : list A) :
  py_index l (-1) =
  match last l with
  | Some x => Ok x
  | None => Raise IndexError
  end.
Proof.
  unfold py_index. rewrite (bool_decide_eq_true_2 (-1 < 0)) by lia.
  destruct l as [|x l]; [reflexivity|].
  rewrite bool_decide_eq_false_2 by (cbn [length]; lia).
  rewrite last_lookup.
  replace (Z.to_nat (Z.of_nat (length (x :: l)) + -1))
    with (Nat.pred (length (x :: l))) by (cbn [length]; lia).
  reflexivity.
Qed.

Lemma py_index_out_of_range {A} (l : list A) (i : Z) :
  (i < - Z.of_nat (length l) ∨ Z.of_nat (length l) ≤ i)%Z →
  py_index l i = Raise IndexError.
Proof.
  intros Hi. unfold py_index.
  destruct (bool_decide_reflect (i < 0)) as [Hneg|Hpos].
  - rewrite bool_decide_eq_true_2 by lia. reflexivity.
  - rewrite bool_decide_eq_false_2 by lia.
    rewrite lookup_ge_None_2 by lia. reflexivity.
Qed.

Section DispatchFacts.
Context (ext : Externals).

Lemma dispatch_other_default (self : MTDNNModel) (loc : Locals)
    (pm hm : option Tensor) (task_id o : Z) (dos : list Z)
    (tts : list TaskType) (sl : list Module) (B H n : nat) (p : Q) (v : bool)
    (w b : ParamData) :
  shape (pooled_output loc) = [B; H] →
  decoder_opts self = Some dos → py_index dos task_id = Ok o → o ≠ 1 →
  task_types self = Some tts → py_index tts task_id = Ok Other →
  py_index (dropout_list self) task_id = Ok (leaf (DropoutWrapper p v)) →
  scoring_list self = Some sl →
  py_index sl task_id = Ok (leaf (Linear H n w b)) →
  dispatch ext self loc pm hm task_id =
    Ok (Logits (mkTensor [B; n]
                  (hist (pooled_output loc) ++ [OpDropout p v; OpLinear H n]))).
Proof.
  intros Hs Hd Ho Hne Ht Hty Hdrop Hsl Hhead. unfold dispatch.
  rewrite Hd; run. rewrite Ho; run.
  rewrite Ht; run. rewrite Hty; run.
  rewrite !decide_False by discriminate.
  rewrite (bool_decide_eq_false_2 (o = 1)) by exact Hne.
  rewrite Hdrop; run.
  cbn [call_module class_of leaf]. run. rewrite Hsl; run. rewrite Hhead; run.
  cbn [call_module class_of leaf].
  rewrite (linear_forward_snoc H n _ [B]) by (rewrite shape_after; exact Hs).
  unfold after. cbn [hist shape]. rewrite <- !app_assoc. reflexivity.
Qed.

Lemma encode_bert (self : MTDNNModel) (ids tt am : Tensor) :
  encoder_type self ≠ ROBERTA →
  encode ext self ids tt am =
    '(layers, pooled) ← enc_call (bert self) ids tt am;
    match last layers with
    | Some s => Ok (mkLocals (Some layers) pooled s)
    | None => Raise IndexError
    end.
Proof.
  intros Hb. unfold encode. rewrite decide_False by exact Hb.
  destruct (enc_call (bert self) ids tt am) as [[layers pooled]|e];
    [|reflexivity].
  run. rewrite py_index_minus_one. destruct (last layers); reflexivity.
Qed.

Lemma dispatch_span_asserts (self : MTDNNModel) (loc : Locals)
    (pm hm : option Tensor) (task_id : Z) (dos : list Z) (tts : list TaskType) :
  decoder_opts self = Some dos → py_index dos task_id = Ok 1 →
  task_types self = Some tts → py_index tts task_id = Ok Span →
  dispatch ext self loc pm hm task_id = Raise AssertionError.
Proof.
  intros Hd Ho Ht Hty. unfold dispatch.
  rewrite Hd; run. rewrite Ho; run.
  rewrite Ht; run. rewrite Hty; run.
  reflexivity.
Qed.

Lemma dispatch_masks_ignored (self : MTDNNModel) (loc : Locals)
    (pm hm pm' hm' : option Tensor) (task_id o : Z) (dos : list Z)
    (tts : list TaskType) (ty : TaskType) :
  decoder_opts self = Some dos → py_index dos task_id = Ok o →
  task_types self = Some tts → py_index tts task_id = Ok ty →
  (ty = Other → o ≠ 1) →
  dispatch ext self loc pm hm task_id = dispatch ext self loc pm' hm' task_id.
Proof.
  intros Hd Ho Ht Hty Hne. unfold dispatch.
  rewrite Hd; run. rewrite Ho; run.
  rewrite Ht; run. rewrite Hty; run.
  destruct ty.
  - reflexivity.
  - reflexivity.
  - rewrite !decide_False by discriminate.
    rewrite !(bool_decide_eq_false_2 (o = 1)) by auto. reflexivity.
Qed.

Lemma dispatch_out_of_range (self : MTDNNModel) (loc : Locals)
    (pm hm : option Tensor) (task_id : Z) (dos : list Z) :
  decoder_opts self = Some dos →
  (task_id < - Z.of_nat (length dos) ∨ Z.of_nat (length dos) ≤ task_id)%Z →
  dispatch ext self loc pm hm task_id = Raise IndexError.
Proof.
  intros Hd Hi. unfold dispatch. rewrite Hd; run.
  rewrite (py_index_out_of_range dos task_id Hi). reflexivity.
Qed.

(** The pairwise branch, once the lookups have selected it. *)
Lemma dispatch_pairwise (self : MTDNNModel) (loc : Locals)
    (pm hm : option Tensor) (task_id : Z) (dos : list Z) (tts : list TaskType) :
  decoder_opts self = Some dos → py_index dos task_id = Ok 1 →
  task_types self = Some tts → py_index tts task_id = Ok Other →
  dispatch ext self loc pm hm task_id =
    (hyp ← method_receiver "size" hm;
     max_query ← size hyp 1;
     _ ← py_assert (bool_decide (0 < max_query)%nat);
     premise ← assert_is_not_None pm;
     hyp ← assert_is_not_None hm;
     hyp_mem ← slice_dim1 (sequence_output loc) max_query;
     scoring_list ← getattr "scoring_list" (scoring_list self);
     head ← py_index scoring_list task_id;
     logits ← call_module ext head [sequence_output loc; hyp_mem; premise; hyp];
     Ok (Logits logits)).
Proof.
  intros Hd Ho Ht Hty. unfold dispatch.
  rewrite Hd; run. rewrite Ho; run.
  rewrite Ht; run. rewrite Hty; run.
  reflexivity.
Qed.


Lemma pairwise_opaque (self : MTDNNModel) (loc : Locals)
    (p h : Tensor) (task_id : Z) (dos : list Z) (tts : list TaskType)
    (sl : list Module) (cls : string) (cs : list Module)
    (q d0 d1 d2 : nat) (rest : list nat) :
  decoder_opts self = Some dos → py_index dos task_id = Ok 1 →
  task_types self = Some tts → py_index tts task_id = Ok Other →
  scoring_list self = Some sl →
  py_index sl task_id = Ok (Node (OtherModule cls) cs) →
  shape h !! 1%nat = Some q → (0 < q)%nat →
  shape (sequence_output loc) = d0 :: d1 :: d2 :: rest →
  dispatch ext self loc (Some p) (Some h) task_id =
    (logits ← opaque_forward ext cls
                [sequence_output loc;
                 after (sequence_output loc) (d0 :: Nat.min d1 q :: d2 :: rest)
                   (OpSlice q);
                 p; h];
     Ok (Logits logits)).
Proof.
  intros Hd Ho Ht Hty Hsl Hhead Hq Hpos Hs.
  rewrite (dispatch_pairwise self loc _ _ task_id dos tts) by assumption.
  cbn [method_receiver]. run. unfold size. rewrite Hq. run.
  rewrite bool_decide_eq_true_2 by exact Hpos. run.
  cbn [assert_is_not_None]. run.
  unfold slice_dim1. rewrite Hs. run.
  rewrite Hsl; run. rewrite Hhead; run. reflexivity.
Qed.

(** A span task on a sequence output of any rank: the scores keep
    every dimension but the last.  With an encoder that returns one
    tensor of shape batch × length × hidden, line 143 takes a batch
    row, and the scores have the shape (length) alone. *)
Lemma dispatch_span_rows (self : MTDNNModel) (loc : Locals)
    (pm hm : option Tensor) (task_id o : Z) (dos : list Z)
    (tts : list TaskType) (sl : list Module) (pre : list nat) (H : nat)
    (p : Q) (v : bool) (w b : ParamData) :
  shape (sequence_output loc) = pre ++ [H] →
  decoder_opts self = Some dos → py_index dos task_id = Ok o → o ≠ 1 →
  task_types self = Some tts → py_index tts task_id = Ok Span →
  py_index (dropout_list self) task_id = Ok (leaf (DropoutWrapper p v)) →
  scoring_list self = Some sl →
  py_index sl task_id = Ok (leaf (Linear H 2 w b)) →
  dispatch ext self loc pm hm task_id =
    Ok (SpanScores
          (mkTensor pre
             (hist (sequence_output loc) ++
              [OpDropout p v; OpLinear H 2; OpSplit 0; OpSqueeze]))
          (mkTensor pre
             (hist (sequence_output loc) ++
              [OpDropout p v; OpLinear H 2; OpSplit 1; OpSqueeze]))).
Proof.
  intros Hs Hd Ho Hne Ht Hty Hdrop Hsl Hhead. unfold dispatch.
  rewrite Hd; run. rewrite Ho; run.
  rewrite Ht; run. rewrite Hty; run.
  rewrite decide_True by reflexivity.
  rewrite (bool_decide_eq_false_2 (o = 1)) by exact Hne. run.
  rewrite Hdrop; run.
  cbn [call_module class_of leaf]. run. rewrite Hsl; run. rewrite Hhead; run.
  cbn [call_module class_of leaf].
  rewrite (linear_forward_snoc H 2 _ pre) by (rewrite shape_after; exact Hs).
  run.
  rewrite (split1_last_two _ pre) by reflexivity. run.
  cbn [unpack2]. run.
  rewrite !(squeeze_last_one _ pre) by reflexivity.
  unfold after. cbn [hist shape]. rewrite <- !app_assoc. reflexivity.
Qed.

(** A sequence labeling task reads the third dimension of what line
    156 takes; without one the call stops there. *)
Lemma dispatch_sequence_labeling_rank (self : MTDNNModel) (loc : Locals)
    (pm hm : option Tensor) (task_id o : Z) (dos : list Z)
    (tts : list TaskType) (layers : list Tensor) (top : Tensor)
    (p : Q) (v : bool) :
  all_encoder_layers loc = Some layers →
  py_index layers (-1) = Ok top →
  shape top !! 2%nat = None →
  decoder_opts self = Some dos → py_index dos task_id = Ok o →
  task_types self = Some tts → py_index tts task_id = Ok SequenceLabeling →
  py_index (dropout_list self) task_id = Ok (leaf (DropoutWrapper p v)) →
  dispatch ext self loc pm hm task_id = Raise IndexError.
Proof.
  intros Hl Htop Hs Hd Ho Ht Hty Hdrop. unfold dispatch.
  rewrite Hd; run. rewrite Ho; run.
  rewrite Ht; run. rewrite Hty; run.
  rewrite decide_False by discriminate.
  rewrite decide_True by reflexivity.
  rewrite Hl; run. rewrite Htop; run. rewrite Hdrop; run.
  cbn [call_module class_of leaf]. run.
  unfold size at 1. rewrite shape_after, Hs. reflexivity.
Qed.

End DispatchFacts.

(** ** Further results on the dispatcher *)

Section DispatchResults.
Context (ext : Externals).

(** X1.  For a task of type [Other] whose decoder option is not 1, with
    the task's dropout and a linear head of n output channels, a batch
    whose pooled output has shape (B, H) yields logits of shape (B, n):
    the pooled output after dropout and projection (lines 171-174). *)
Theorem other_default_forward (self : MTDNNModel) (ids tt am : Tensor)
    (pm hm : option Tensor) (task_id o : Z) (loc : Locals) (dos : list Z)
    (tts : list TaskType) (sl : list Module) (B H n : nat) (p : Q) (v : bool)
    (w b : ParamData) :
  encode ext self ids tt am = Ok loc →
  shape (pooled_output loc) = [B; H] →
  decoder_opts self = Some dos → py_index dos task_id = Ok o → o ≠ 1 →
  task_types self = Some tts → py_index tts task_id = Ok Other →
  py_index (dropout_list self) task_id = Ok (leaf (DropoutWrapper p v)) →
  scoring_list self = Some sl →
  py_index sl task_id = Ok (leaf (Linear H n w b)) →
  forward ext self ids tt am pm hm task_id =
    Ok (Logits (mkTensor [B; n]
                  (hist (pooled_output loc) ++ [OpDropout p v; OpLinear H n]))).
Proof.
  intros Hloc Hs Hd Ho Hne Ht Hty Hdrop Hsl Hhead.
  rewrite (forward_encode ext _ _ _ _ _ _ _ loc Hloc).
  apply (dispatch_other_default ext self loc pm hm task_id o dos tts sl B H n
           p v w b); assumption.
Qed.

(** X2.  With an encoder type other than RoBERTa, a
    [SequenceLabeling] task needs three dimensions in what line 156
    takes, the item [-1] of the first object the encoder returned: when
    that item has fewer, as has the batch row (L, H) of a sequence
    output of shape (B, L, H), the call raises [IndexError] at
    [pooled_output.size(2)], after the dropout and before any
    projection (lines 142, 155-158). *)
Theorem sequence_labeling_needs_rank_three (self : MTDNNModel)
    (ids tt am : Tensor) (pm hm : option Tensor) (task_id o : Z)
    (items : list Tensor) (pooled top : Tensor) (dos : list Z)
    (tts : list TaskType) (p : Q) (v : bool) :
  encoder_type self ≠ ROBERTA →
  enc_call (bert self) ids tt am = Ok (items, pooled) →
  last items = Some top →
  shape top !! 2%nat = None →
  decoder_opts self = Some dos → py_index dos task_id = Ok o →
  task_types self = Some tts → py_index tts task_id = Ok SequenceLabeling →
  py_index (dropout_list self) task_id = Ok (leaf (DropoutWrapper p v)) →
  forward ext self ids tt am pm hm task_id = Raise IndexError.
Proof.
  intros Hb Hcall Hlast Hs Hd Ho Ht Hty Hdrop.
  assert (encode ext self ids tt am = Ok (mkLocals (Some items) pooled top))
    as Hloc.
  { rewrite (encode_bert ext self ids tt am Hb), Hcall. run.
    rewrite Hlast. reflexivity. }
  rewrite (forward_encode ext _ _ _ _ _ _ _ _ Hloc).
  apply (dispatch_sequence_labeling_rank ext self _ pm hm task_id o dos tts
           items top p v); try assumption.
  - reflexivity.
  - rewrite py_index_minus_one, Hlast. reflexivity.
Qed.

(** X3.  A task of type [Span] whose decoder option is 1 is refused:
    once the encoding step has returned, [forward] raises
    [AssertionError] (line 148), before any dropout or head is used. *)
Theorem span_rejects_pairwise_option (self : MTDNNModel) (ids tt am : Tensor)
    (pm hm : option Tensor) (task_id : Z) (loc : Locals) (dos : list Z)
    (tts : list TaskType) :
  encode ext self ids tt am = Ok loc →
  decoder_opts self = Some dos → py_index dos task_id = Ok 1 →
  task_types self = Some tts → py_index tts task_id = Ok Span →
  forward ext self ids tt am pm hm task_id = Raise AssertionError.
Proof.
  intros Hloc Hd Ho Ht Hty.
  rewrite (forward_encode ext _ _ _ _ _ _ _ loc Hloc).
  apply (dispatch_span_asserts ext self loc pm hm task_id dos tts); assumption.
Qed.

(** X4.  A task id outside [-n, n-1], n the number of decoder options,
    never selects a task: [forward] raises, with [IndexError] from the
    first lookup (line 145) once the encoding step has returned. *)
Theorem task_id_out_of_range (self : MTDNNModel) (ids tt am : Tensor)
    (pm hm : option Tensor) (task_id : Z) (dos : list Z) :
  decoder_opts self = Some dos →
  (task_id < - Z.of_nat (length dos) ∨ Z.of_nat (length dos) ≤ task_id)%Z →
  raises (forward ext self ids tt am pm hm task_id) ∧
  ∀ loc, encode ext self ids tt am = Ok loc →
    forward ext self ids tt am pm hm task_id = Raise IndexError.
Proof.
  intros Hd Hi. split.
  - apply forward_raises. intros loc.
    rewrite (dispatch_out_of_range ext self loc pm hm task_id dos Hd Hi).
    eexists; reflexivity.
  - intros loc Hloc. rewrite (forward_encode ext _ _ _ _ _ _ _ loc Hloc).
    apply (dispatch_out_of_range ext self loc pm hm task_id dos Hd Hi).
Qed.

(** X5.  In the pairwise branch (task type [Other], decoder option 1)
    with a hypothesis mask given: a mask without a second dimension
    raises [IndexError]; a mask whose second dimension is empty raises
    [AssertionError]; a usable mask with [premise_mask=None] raises
    [AssertionError] (lines 163-165). *)
Theorem pairwise_mask_preconditions (self : MTDNNModel) (ids tt am : Tensor)
    (task_id : Z) (loc : Locals) (dos : list Z) (tts : list TaskType) :
  encode ext self ids tt am = Ok loc →
  decoder_opts self = Some dos → py_index dos task_id = Ok 1 →
  task_types self = Some tts → py_index tts task_id = Ok Other →
  (∀ pm h, shape h !! 1%nat = None →
     forward ext self ids tt am pm (Some h) task_id = Raise IndexError) ∧
  (∀ pm h, shape h !! 1%nat = Some 0%nat →
     forward ext self ids tt am pm (Some h) task_id = Raise AssertionError) ∧
  (∀ h q, shape h !! 1%nat = Some (S q) →
     forward ext self ids tt am None (Some h) task_id = Raise AssertionError).
Proof.
  intros Hloc Hd Ho Ht Hty.
  repeat split; intros; rewrite (forward_encode ext _ _ _ _ _ _ _ loc Hloc);
    rewrite (dispatch_pairwise ext self loc _ _ task_id dos tts) by assumption;
    cbn [method_receiver]; run; unfold size;
    match goal with E : shape _ !! _ = _ |- _ => rewrite E end;
    reflexivity.
Qed.


(** X7.  In the pairwise branch, with both masks given, a hypothesis
    mask of positive width q and a sequence output of shape
    (d0, d1, d2, ...), the head receives the sequence output, its first
    q positions along dimension 1 (shape (d0, min d1 q, d2, ...)), the
    premise mask and the hypothesis mask, and its result is returned as
    the logits; the task's dropout is not applied (lines 162-170). *)
Theorem pairwise_head_arguments (self : MTDNNModel) (ids tt am : Tensor)
    (p h : Tensor) (task_id : Z) (loc : Locals) (dos : list Z)
    (tts : list TaskType) (sl : list Module) (cls : string)
    (cs : list Module) (q d0 d1 d2 : nat) (rest : list nat) :
  encode ext self ids tt am = Ok loc →
  decoder_opts self = Some dos → py_index dos task_id = Ok 1 →
  task_types self = Some tts → py_index tts task_id = Ok Other →
  scoring_list self = Some sl →
  py_index sl task_id = Ok (Node (OtherModule cls) cs) →
  shape h !! 1%nat = Some q → (0 < q)%nat →
  shape (sequence_output loc) = d0 :: d1 :: d2 :: rest →
  forward ext self ids tt am (Some p) (Some h) task_id =
    (logits ← opaque_forward ext cls
                [sequence_output loc;
                 after (sequence_output loc) (d0 :: Nat.min d1 q :: d2 :: rest)
                   (OpSlice q);
                 p; h];
     Ok (Logits logits)).
Proof.
  intros Hloc Hd Ho Ht Hty Hsl Hhead Hq Hpos Hs.
  rewrite (forward_encode ext _ _ _ _ _ _ _ loc Hloc).
  apply (pairwise_opaque ext self loc p h task_id dos tts sl cls cs q d0 d1 d2
           rest); assumption.
Qed.

(** X8.  Outside the pairwise branch the two masks are not looked at:
    for a task of type [Span] or [SequenceLabeling], or of type [Other]
    with a decoder option other than 1, [forward] gives the same result
    whatever [premise_mask] and [hyp_mask] are. *)
Theorem masks_ignored_outside_pairwise (self : MTDNNModel)
    (ids tt am : Tensor) (pm hm pm' hm' : option Tensor) (task_id o : Z)
    (dos : list Z) (tts : list TaskType) (ty : TaskType) :
  decoder_opts self = Some dos → py_index dos task_id = Ok o →
  task_types self = Some tts → py_index tts task_id = Ok ty →
  (ty = Other → o ≠ 1) →
  forward ext self ids tt am pm hm task_id
    = forward ext self ids tt am pm' hm' task_id.
Proof.
  intros Hd Ho Ht Hty Hne. unfold forward.
  destruct (encode ext self ids tt am) as [loc|e]; [|reflexivity].
  apply (dispatch_masks_ignored ext self loc pm hm pm' hm' task_id o dos tts ty);
    assumption.
Qed.

(** X9.  With the RoBERTa encoder type only [input_ids] reaches the
    encoder: [forward] gives the same result whatever [token_type_ids]
    and [attention_mask] are (lines 138-140). *)
Theorem roberta_ignores_segments_and_mask (self : MTDNNModel)
    (ids tt am tt' am' : Tensor) (pm hm : option Tensor) (task_id : Z) :
  encoder_type self = ROBERTA →
  forward ext self ids tt am pm hm task_id
    = forward ext self ids tt' am' pm hm task_id.
Proof.
  intros Hr. unfold forward, encode.
  rewrite !decide_True by exact Hr. reflexivity.
Qed.

(** X10.  With an encoder type other than RoBERTa the sequence output
    is the last of the layers the encoder returns, which are kept as
    [all_encoder_layers]; an encoder that returns no layer makes every
    call raise [IndexError] (lines 142-143). *)
Theorem bert_sequence_output_is_last_layer (self : MTDNNModel)
    (ids tt am : Tensor) :
  encoder_type self ≠ ROBERTA →
  (∀ pooled pm hm task_id,
     enc_call (bert self) ids tt am = Ok ([], pooled) →
     forward ext self ids tt am pm hm task_id = Raise IndexError) ∧
  (∀ loc, encode ext self ids tt am = Ok loc →
     ∃ layers,
       enc_call (bert self) ids tt am = Ok (layers, pooled_output loc) ∧
       last layers = Some (sequence_output loc) ∧
       all_encoder_layers loc = Some layers).
Proof.
  intros Hb. split.
  - intros pooled pm hm task_id Hcall. unfold forward.
    rewrite (encode_bert ext self ids tt am Hb), Hcall. reflexivity.
  - intros loc. rewrite (encode_bert ext self ids tt am Hb).
    destruct (enc_call (bert self) ids tt am) as [[layers pooled]|e];
      [|discriminate].
    run. destruct (last layers) as [s|] eqn:Hlast; [|discriminate].
    intros [= <-]. exists layers. repeat split; assumption.
Qed.

(** X15.  A [Span] task whose linear head has a number of channels
    other than 2 cannot return: the chunks of the split do not unpack
    into a start and an end tensor and [forward] raises [ValueError]
    (line 151). *)
Theorem span_head_width (self : MTDNNModel) (ids tt am : Tensor)
    (pm hm : option Tensor) (task_id o : Z) (loc : Locals) (dos : list Z)
    (tts : list TaskType) (sl : list Module) (B L H k : nat) (p : Q) (v : bool)
    (w b : ParamData) :
  encode ext self ids tt am = Ok loc →
  shape (sequence_output loc) = [B; L; H] →
  decoder_opts self = Some dos → py_index dos task_id = Ok o → o ≠ 1 →
  task_types self = Some tts → py_index tts task_id = Ok Span →
  py_index (dropout_list self) task_id = Ok (leaf (DropoutWrapper p v)) →
  scoring_list self = Some sl →
  py_index sl task_id = Ok (leaf (Linear H k w b)) →
  k ≠ 2%nat →
  ∃ msg, forward ext self ids tt am pm hm task_id = Raise (ValueError msg).
Proof.
  intros Hloc Hs Hd Ho Hne Ht Hty Hdrop Hsl Hhead Hk.
  rewrite (forward_encode ext _ _ _ _ _ _ _ loc Hloc).
  apply (dispatch_span_other_width ext self loc pm hm task_id o dos tts sl
           B L H k p v w b); assumption.
Qed.

End DispatchResults.

(** ** Further results on construction *)

Lemma apply_first_visited (fn : Module → result Module) (e : exn) :
  ∀ t, fn (first_visited t) = Raise e → apply fn t = Raise e.
Proof.
  fix IH 1. intros [c [|x l]] H.
  - exact H.
  - simpl. rewrite (IH x H). reflexivity.
Qed.

Lemma init_weights_error (self : MTDNNModel) (m : Module) :
  init_weights self m =
    Raise (if isinstance_Linear_or_Embedding m
           then AttributeError "opt" else NameError "BertLayerNorm").
Proof.
  unfold init_weights. destruct (isinstance_Linear_or_Embedding m).
  - reflexivity.
  - rewrite load_BertLayerNorm. reflexivity.
Qed.

Section ConstructionMore.
Context (ext : Externals).

(** X12.  The constructor returns an instance exactly when its argument
    is a configuration with [dump_feature] set and an encoder type
    other than RoBERTa, and the base constructor and [BertModel] both
    return; the instance then has the base modules, that encoder, the
    hidden size of the configuration, an empty dropout list and no
    task slot. *)
Theorem construction_characterised (arg : PyVal) (self : MTDNNModel) :
  MTDNNModel_init ext arg = Ok self ↔
  ∃ c base enc,
    arg = PyConfig c ∧
    MTDNNConfig.dump_feature c = true ∧
    MTDNNConfig.encoder_type c ≠ ROBERTA ∧
    super_init ext arg = Ok base ∧
    BertModel_new ext c = Ok enc ∧
    self = fresh_instance base c enc.
Proof.
  split.
  - intros H.
    assert (∃ c, arg = PyConfig c) as [c ->].
    { unfold MTDNNModel_init in H.
      apply bind_Ok_inv in H as ([base c] & E & _).
      apply pretrained_init_Ok in E as [-> _]. eauto. }
    destruct (MTDNNConfig.dump_feature c) eqn:Hdump.
    + destruct (init_dump_Ok ext c self Hdump H)
        as (base & enc & Hs & He & Hb & ->).
      exists c, base, enc. repeat split; auto.
    + destruct (raises_not_Ok _ self (init_without_dump_raises ext c Hdump) H).
  - intros (c & base & enc & -> & Hdump & Hb & Hs & He & ->).
    apply init_dump_returns; assumption.
Qed.

(** X13.  Failures of the collaborators are not caught: an exception of
    the base constructor, of [BertModel] (built for every encoder type,
    line 67) or, with the RoBERTa encoder type, of
    [FairseqRobertModel.from_pretrained] is the exception the
    constructor raises. *)
Theorem collaborator_errors_propagate :
  (∀ arg e, super_init ext arg = Raise e → MTDNNModel_init ext arg = Raise e) ∧
  (∀ c base e,
     super_init ext (PyConfig c) = Ok base →
     BertModel_new ext c = Raise e →
     MTDNNModel_init ext (PyConfig c) = Raise e) ∧
  (∀ c base enc e,
     super_init ext (PyConfig c) = Ok base →
     BertModel_new ext c = Ok enc →
     MTDNNConfig.encoder_type c = ROBERTA →
     from_pretrained ext (MTDNNConfig.init_checkpoint c) = Raise e →
     MTDNNModel_init ext (PyConfig c) = Raise e).
Proof.
  split; [|split].
  - intros arg e Hs. unfold MTDNNModel_init, MTDNNPretrainedModel_init.
    rewrite Hs. reflexivity.
  - intros c base e Hs He. unfold MTDNNModel_init.
    rewrite (bind_Ok _ _ _ (pretrained_init_config ext "MTDNNModel" c base Hs)).
    cbv beta iota zeta. rewrite He. reflexivity.
  - intros c base enc e Hs He Hr Hp. unfold MTDNNModel_init.
    rewrite (bind_Ok _ _ _ (pretrained_init_config ext "MTDNNModel" c base Hs)).
    cbv beta iota zeta. rewrite (bind_Ok _ _ _ He).
    cbn [encoder_type]. rewrite decide_True by exact Hr.
    rewrite Hp. reflexivity.
Qed.

(** X14.  With [dump_feature] off, an encoder type other than RoBERTa
    and at least one class count, the constructor stops in the first
    turn of the head loop: with [IndexError] at line 92 when
    [task_types] is empty, and otherwise with [NameError] for
    [DropoutWrapper] at line 93. *)
Theorem head_loop_first_error (c : MTDNNConfig.t) (base : BaseModules)
    (enc : Encoder) (label : nat) (rest : list nat) :
  MTDNNConfig.dump_feature c = false →
  MTDNNConfig.encoder_type c ≠ ROBERTA →
  super_init ext (PyConfig c) = Ok base →
  BertModel_new ext c = Ok enc →
  MTDNNConfig.n_class c = label :: rest →
  MTDNNModel_init ext (PyConfig c) =
    Raise (match MTDNNConfig.task_types c with
           | [] => IndexError
           | _ => NameError "DropoutWrapper"
           end).
Proof.
  intros Hdump Hb Hs He Hn. unfold MTDNNModel_init.
  rewrite (bind_Ok _ _ _ (pretrained_init_config ext "MTDNNModel" c base Hs)).
  cbv beta iota zeta. rewrite (bind_Ok _ _ _ He).
  cbn [encoder_type]. rewrite decide_False by exact Hb.
  run. rewrite Hdump.
  cbn [n_class set_n_class set_task_dropout_p set_task_types set_bert
       set_scoring_list set_decoder_opts getattr mbind result_bind].
  rewrite Hn. unfold enumerate. cbn [imap build_heads]. run.
  unfold add_head at 1.
  destruct (bool_decide (0 < MTDNNConfig.update_bert_opt c));
    cbn [task_types set_n_class set_task_dropout_p set_task_types set_bert
         set_scoring_list set_decoder_opts getattr mbind result_bind];
    (destruct (MTDNNConfig.task_types c) as [|t ts]; [reflexivity|];
     change (py_index (t :: ts) (Z.of_nat 0)) with (@Ok TaskType t);
     run; rewrite load_DropoutWrapper; reflexivity).
Qed.

(** X16.  [_my_init] fails on the module [apply] reaches first, the
    leftmost childless descendant of [self.embeddings]: with
    [AttributeError] for [self.opt] when that module is a linear or
    embedding module, with [NameError] for [BertLayerNorm] otherwise
    (lines 113-133). *)
Theorem my_init_first_error (self : MTDNNModel) :
  _my_init self =
    Raise (if isinstance_Linear_or_Embedding (first_visited (embeddings self))
           then AttributeError "opt" else NameError "BertLayerNorm").
Proof.
  unfold _my_init.
  rewrite (apply_first_visited (init_weights self) _ (module_tree self)
             (init_weights_error self _)).
  reflexivity.
Qed.

End ConstructionMore.

(** ** The further results on sample instances *)

Lemma other_default_forward_witness :
  forward Sample.ext Cases.two_tasks Sample.input_ids Sample.input_ids
    Sample.input_ids None None 1
  = Ok (Logits (mkTensor [8; 3]%nat
                  [OpDropout (1 # 10) false; OpLinear 4 3])).
Proof.
  apply (other_default_forward Sample.ext Cases.two_tasks Sample.input_ids
           Sample.input_ids Sample.input_ids None None 1 0 Cases.bert_locals
           [0; 0] [Span; Other]
           [leaf (Linear 4 2 Untouched Untouched);
            leaf (Linear 4 3 Untouched Untouched)]
           8%nat 4%nat 3%nat (1 # 10)%Q false Untouched Untouched);
    try reflexivity.
  lia.
Defined.

Lemma sequence_labeling_needs_rank_three_witness :
  forward Sample.ext Cases.tagging Sample.input_ids Sample.input_ids
    Sample.input_ids None None 0
  = Raise IndexError.
Proof.
  apply (sequence_labeling_needs_rank_three Sample.ext Cases.tagging
           Sample.input_ids Sample.input_ids Sample.input_ids None None 0 0
           (replicate 8 (mkTensor [16; 4]%nat [])) (mkTensor [8; 4]%nat [])
           (mkTensor [16; 4]%nat []) [0] [SequenceLabeling]
           (1 # 10)%Q false);
    try reflexivity.
  discriminate.
Defined.

Lemma span_rejects_pairwise_option_witness :
  forward Sample.ext Cases.span_pairwise_option Sample.input_ids
    Sample.input_ids Sample.input_ids None None 0
  = Raise AssertionError.
Proof.
  apply (span_rejects_pairwise_option Sample.ext Cases.span_pairwise_option
           Sample.input_ids Sample.input_ids Sample.input_ids None None 0
           Cases.bert_locals [1] [Span]);
    reflexivity.
Defined.

Lemma task_id_out_of_range_witness :
  forward Sample.ext Cases.two_tasks Sample.input_ids Sample.input_ids
    Sample.input_ids None None 2
  = Raise IndexError ∧
  forward Sample.ext Cases.two_tasks Sample.input_ids Sample.input_ids
    Sample.input_ids None None (-3)
  = Raise IndexError.
Proof.
  split.
  - destruct (task_id_out_of_range Sample.ext Cases.two_tasks
                Sample.input_ids Sample.input_ids Sample.input_ids None None
                2 [0; 0]) as [_ H]; [reflexivity | simpl; lia |].
    apply (H Cases.bert_locals). reflexivity.
  - destruct (task_id_out_of_range Sample.ext Cases.two_tasks
                Sample.input_ids Sample.input_ids Sample.input_ids None None
                (-3) [0; 0]) as [_ H]; [reflexivity | simpl; lia |].
    apply (H Cases.bert_locals). reflexivity.
Defined.

Lemma pairwise_mask_preconditions_witness :
  forward Sample.ext Cases.pairwise Sample.input_ids Sample.input_ids
    Sample.input_ids (Some Sample.input_ids) (Some Cases.empty_hyp_mask) 0
  = Raise AssertionError ∧
  forward Sample.ext Cases.pairwise Sample.input_ids Sample.input_ids
    Sample.input_ids None (Some Cases.hyp_mask) 0
  = Raise AssertionError.
Proof.
  destruct (pairwise_mask_preconditions Sample.ext Cases.pairwise
              Sample.input_ids Sample.input_ids Sample.input_ids 0
              Cases.bert_locals [1] [Other])
    as (_ & Hempty & Hpremise); [reflexivity ..|].
  split.
  - apply Hempty. reflexivity.
  - apply (Hpremise Cases.hyp_mask 5%nat). reflexivity.
Defined.


Lemma pairwise_head_arguments_witness :
  forward Sample.ext Cases.pairwise_opaque Sample.input_ids Sample.input_ids
    Sample.input_ids (Some Sample.input_ids) (Some Cases.hyp_mask) 0
  = (logits ← opaque_forward Sample.ext "SANClassifier"
                [mkTensor [8; 16; 4]%nat [];
                 mkTensor [8; 6; 4]%nat [OpSlice 6];
                 Sample.input_ids; Cases.hyp_mask];
     Ok (Logits logits)).
Proof.
  apply (pairwise_head_arguments Sample.ext Cases.pairwise_opaque
           Sample.input_ids Sample.input_ids Sample.input_ids
           Sample.input_ids Cases.hyp_mask 0 Cases.roberta_locals [1] [Other]
           [leaf (OtherModule "SANClassifier")] "SANClassifier" []
           6%nat 8%nat 16%nat 4%nat []);
    try reflexivity.
  simpl. lia.
Defined.

Lemma masks_ignored_outside_pairwise_witness :
  forward Sample.ext Cases.two_tasks Sample.input_ids Sample.input_ids
    Sample.input_ids (Some Sample.input_ids) (Some Cases.hyp_mask) 1
  = forward Sample.ext Cases.two_tasks Sample.input_ids Sample.input_ids
      Sample.input_ids None None 1.
Proof.
  apply (masks_ignored_outside_pairwise Sample.ext Cases.two_tasks
           Sample.input_ids Sample.input_ids Sample.input_ids
           (Some Sample.input_ids) (Some Cases.hyp_mask) None None 1 0
           [0; 0] [Span; Other] Other);
    try reflexivity.
  intros _. lia.
Defined.

Lemma roberta_ignores_segments_and_mask_witness :
  forward Sample.ext Cases.roberta_two_tasks Sample.input_ids
    Sample.input_ids Sample.input_ids None None 0
  = forward Sample.ext Cases.roberta_two_tasks Sample.input_ids
      Cases.hyp_mask Cases.empty_hyp_mask None None 0.
Proof.
  apply (roberta_ignores_segments_and_mask Sample.ext Cases.roberta_two_tasks
           Sample.input_ids Sample.input_ids Sample.input_ids
           Cases.hyp_mask Cases.empty_hyp_mask None None 0).
  reflexivity.
Defined.

Lemma bert_sequence_output_is_last_layer_witness :
  ∃ layers,
    enc_call (bert Cases.two_tasks) Sample.input_ids Sample.input_ids
      Sample.input_ids = Ok (layers, pooled_output Cases.bert_locals) ∧
    last layers = Some (sequence_output Cases.bert_locals) ∧
    all_encoder_layers Cases.bert_locals = Some layers.
Proof.
  apply (bert_sequence_output_is_last_layer Sample.ext Cases.two_tasks
           Sample.input_ids Sample.input_ids Sample.input_ids).
  - discriminate.
  - reflexivity.
Defined.

Lemma head_loop_first_error_witness :
  MTDNNModel_init Sample.ext (PyConfig (Sample.two_tasks BERT false))
  = Raise (NameError "DropoutWrapper") ∧
  MTDNNModel_init Sample.ext (PyConfig Cases.no_task_type) = Raise IndexError.
Proof.
  split.
  - exact (head_loop_first_error Sample.ext (Sample.two_tasks BERT false)
             Sample.base_modules Sample.bert_encoder 2%nat [3%nat]
             eq_refl ltac:(discriminate) eq_refl eq_refl eq_refl).
  - exact (head_loop_first_error Sample.ext Cases.no_task_type
             Sample.base_modules Sample.bert_encoder 3%nat []
             eq_refl ltac:(discriminate) eq_refl eq_refl eq_refl).
Defined.

Lemma span_head_width_witness :
  ∃ msg,
    forward Sample.ext Cases.wide_span Sample.input_ids Sample.input_ids
      Sample.input_ids None None 0
    = Raise (ValueError msg).
Proof.
  apply (span_head_width Sample.ext Cases.wide_span Sample.input_ids
           Sample.input_ids Sample.input_ids None None 0 0 Cases.roberta_locals
           [0] [Span] [leaf (Linear 4 3 Untouched Untouched)]
           8%nat 16%nat 4%nat 3%nat (1 # 10)%Q false Untouched Untouched);
    try reflexivity; lia.
Defined.
